(** * TRADING_ANALYSIS: the per-symbol decision pipeline and the sector lookup

    A shallow embedding of [ai_trading_system.py] (the orchestrator
    [TradingSystemOrchestrator]) and of [stock_sector_lookup.py]
    ([STOCK_SECTORS], [detect_sector]), with the properties the specification
    states about them.

    Conventions.
    - Python [float] and [int] scores and prices are rationals ([Q]); every
      comparison the code makes is against an integer literal, which is exact
      on finite floats.  NaN and infinities are not modelled.
    - Python [str] is [string]; case mapping is modelled on ASCII letters.
    - [print] calls are not modelled.
    - Collaborators whose modules are imported by the orchestrator but are not
      part of the sources (data fetcher, regime filter, validator, engines,
      scorer, risk governor, formatter) are the fields of the orchestrator
      record, arbitrary total functions; exceptions they might raise are not
      modelled.  Each call the orchestrator makes to one of them is recorded
      in a call log. *)

From Stdlib Require Import String Ascii List ZArith QArith Bool Lia.
From Stdlib Require Import Sorted.
From stdpp Require Import base gmap strings list.

Local Open Scope string_scope.
Local Open Scope list_scope.

(* ===================================================================== *)
(** ** stock_sector_lookup.py *)
(* ===================================================================== *)

Module stock_sector_lookup.

(** *** Python string operations used by [detect_sector] *)

(** [str.upper] on one character: ASCII lower-case letters are shifted to
    upper case, every other byte is kept.  Exchange symbols are ASCII; the
    case mapping of other scripts is outside the model. *)
Definition ascii_upper (c : ascii) : ascii :=
  let n := nat_of_ascii c in
  if ((97 <=? n) && (n <=? 122))%nat then ascii_of_nat (n - 32) else c.

Fixpoint str_upper (s : string) : string :=
  match s with
  | EmptyString => EmptyString
  | String c s' => String (ascii_upper c) (str_upper s')
  end.

(** [s.replace(old, new)] for a non-empty [old]: occurrences are replaced left
    to right without overlap and the output is not scanned again.  [skip]
    counts the characters of a matched occurrence still to be dropped. *)
Fixpoint replace_from (old new : string) (skip : nat) (s : string) : string :=
  match s with
  | EmptyString => EmptyString
  | String c s' =>
      match skip with
      | S k => replace_from old new k s'
      | O =>
          if String.prefix old s
          then new ++ replace_from old new (String.length old - 1) s'
          else String c (replace_from old new 0 s')
      end
  end.

Definition str_replace (old new s : string) : string := replace_from old new 0 s.

(** [needle in hay] on strings: [needle] occurs as a contiguous substring. *)
Fixpoint str_contains (needle hay : string) : bool :=
  String.prefix needle hay ||
  match hay with
  | EmptyString => false
  | String _ hay' => str_contains needle hay'
  end.

(** *** A Python dict with string keys and values

    Iteration order is insertion order, and assigning to a key that is
    already present keeps its position and replaces its value: this is what a
    dict display with a repeated key does. *)
Definition pydict := list (string * string).

Fixpoint dict_set (k v : string) (d : pydict) : pydict :=
  match d with
  | [] => [(k, v)]
  | (k', v') :: d' =>
      if String.eqb k k' then (k', v) :: d' else (k', v') :: dict_set k v d'
  end.

Definition dict_display (items : list (string * string)) : pydict :=
  fold_left (fun d kv => dict_set (fst kv) (snd kv) d) items [].

Fixpoint dict_get (k : string) (d : pydict) : option string :=
  match d with
  | [] => None
  | (k', v) :: d' => if String.eqb k k' then Some v else dict_get k d'
  end.

Definition dict_keys (d : pydict) : list string := map fst d.
Definition dict_values (d : pydict) : list string := map snd d.

(** The entries of the [STOCK_SECTORS] display, in source order.  The key
    ['INDUSINDBK'] is written twice (Banking, then Telecom). *)
Definition STOCK_SECTORS_display : list (string * string) :=
  [ (* Banking *)
    ("HDFCBANK", "BANKING"); ("ICICIBANK", "BANKING"); ("SBIN", "BANKING");
    ("AXISBANK", "BANKING"); ("KOTAKBANK", "BANKING"); ("INDUSINDBK", "BANKING");
    ("BANDHANBNK", "BANKING"); ("FEDERALBNK", "BANKING"); ("IDFCFIRSTB", "BANKING");
    (* IT *)
    ("TCS", "IT"); ("INFY", "IT"); ("WIPRO", "IT"); ("HCLTECH", "IT");
    ("TECHM", "IT"); ("LTIM", "IT"); ("COFORGE", "IT"); ("MPHASIS", "IT");
    (* Auto *)
    ("TATAMOTORS", "AUTO"); ("M&M", "AUTO"); ("MARUTI", "AUTO"); ("BAJAJ-AUTO", "AUTO");
    ("EICHERMOT", "AUTO"); ("HEROMOTOCORP", "AUTO"); ("ASHOKLEY", "AUTO");
    (* Pharma *)
    ("SUNPHARMA", "PHARMA"); ("DRREDDY", "PHARMA"); ("CIPLA", "PHARMA");
    ("DIVISLAB", "PHARMA"); ("BIOCON", "PHARMA"); ("AUROPHARMA", "PHARMA");
    (* FMCG *)
    ("HINDUNILVR", "FMCG"); ("ITC", "FMCG"); ("NESTLEIND", "FMCG");
    ("BRITANNIA", "FMCG"); ("DABUR", "FMCG"); ("MARICO", "FMCG");
    (* Energy / Oil & Gas *)
    ("RELIANCE", "ENERGY"); ("ONGC", "ENERGY"); ("BPCL", "ENERGY");
    ("IOC", "ENERGY"); ("GAIL", "ENERGY"); ("COALINDIA", "ENERGY");
    (* Metals *)
    ("TATASTEEL", "METALS"); ("HINDALCO", "METALS"); ("JSWSTEEL", "METALS");
    ("SAIL", "METALS"); ("VEDL", "METALS"); ("NATIONALUM", "METALS");
    (* Infra / Construction *)
    ("LT", "INFRA"); ("ADANIPORTS", "INFRA"); ("ADANIENT", "INFRA");
    (* Finance (NBFCs) *)
    ("BAJFINANCE", "FINANCE"); ("BAJAJFINSV", "FINANCE"); ("CHOLAFIN", "FINANCE");
    ("SBILIFE", "FINANCE"); ("HDFCLIFE", "FINANCE"); ("ICICIPRULI", "FINANCE");
    (* Realty *)
    ("DLF", "REALTY"); ("GODREJPROP", "REALTY"); ("OBEROIRLTY", "REALTY");
    (* Cement *)
    ("ULTRACEMCO", "CEMENT"); ("GRASIM", "CEMENT"); ("SHREECEM", "CEMENT");
    (* Telecom *)
    ("BHARTIARTL", "TELECOM"); ("INDUSINDBK", "TELECOM");
    (* Paints *)
    ("ASIANPAINT", "PAINTS"); ("BERGER", "PAINTS") ].

Definition STOCK_SECTORS : pydict := dict_display STOCK_SECTORS_display.

(** *** detect_sector *)

(** [symbol.upper().replace('.NS', '').replace('.BO', '')] *)
Definition clean_symbol_of (symbol : string) : string :=
  str_replace ".BO" "" (str_replace ".NS" "" (str_upper symbol)).

(** The loop [for stock, sector in STOCK_SECTORS.items()]: the first entry, in
    insertion order, one of whose key and the cleaned symbol contains the
    other. *)
Fixpoint fuzzy_match (clean_symbol : string) (items : pydict) : option string :=
  match items with
  | [] => None
  | (stock, sector) :: rest =>
      if str_contains clean_symbol stock || str_contains stock clean_symbol
      then Some sector
      else fuzzy_match clean_symbol rest
  end.

Definition detect_sector (symbol : string) : string :=
  let clean_symbol := clean_symbol_of symbol in
  match dict_get clean_symbol STOCK_SECTORS with
  | Some sector => sector
  | None =>
      match fuzzy_match clean_symbol STOCK_SECTORS with
      | Some sector => sector
      | None => "UNKNOWN"
      end
  end.

(** [get_stocks_by_sector]: the keys mapped to [sector], in insertion order. *)
Definition get_stocks_by_sector (sector : string) : list string :=
  map fst (List.filter (fun kv => String.eqb (snd kv) sector) STOCK_SECTORS).


(** *** get_all_sectors *)

(** [set(values)] read in first-occurrence order: one copy of each element.
    (The iteration order of a Python set is unspecified; [sorted] below
    returns the same list for every order of distinct elements.) *)
Definition dedupe (l : list string) : list string :=
  fold_left (fun seen x => if existsb (String.eqb x) seen then seen else seen ++ [x]) l [].

(** [sorted(...)] on strings: ascending in the lexicographic order of their
    characters. *)
Fixpoint insert_sorted (x : string) (l : list string) : list string :=
  match l with
  | [] => [x]
  | y :: l' => if String.leb x y then x :: l else y :: insert_sorted x l'
  end.

Definition sorted (l : list string) : list string := fold_right insert_sorted [] l.

(** [sorted(set(STOCK_SECTORS.values()))] *)
Definition get_all_sectors : list string := sorted (dedupe (dict_values STOCK_SECTORS)).

End stock_sector_lookup.

(* ===================================================================== *)
(** ** main.py *)
(* ===================================================================== *)

Module main.

Import stock_sector_lookup.

(** Lines 101-103 of [receive_stock]: the sector the bot passes to
    [analyze_stock] for a symbol. *)
Definition bot_sector (symbol : string) : string :=
  let sector := detect_sector symbol in
  if String.eqb sector "UNKNOWN" then "OTHER" else sector.

End main.

(* ===================================================================== *)
(** ** ai_trading_system.py *)
(* ===================================================================== *)

Module ai_trading_system.

(** *** Data the orchestrator reads and builds *)

(** A member of a Python [Enum], represented by its [.value], the only
    attribute the orchestrator reads ([direction.value], [setup_type.value],
    [trailing_method.value]). *)
Record Enum := { value : string }.

(** A pandas DataFrame as the orchestrator uses it: a mapping from a column
    label to that column's values. *)
Abbreviation DataFrame := (gmap string (list Q)).

(** Exceptions the orchestrator's own expressions can raise. *)
Inductive Exn :=
| KeyError (key : string)
| IndexError
| AttributeError (attr : string).

Inductive Res (A : Type) :=
| Ok (a : A)
| Raise (e : Exn).
Arguments Ok {A} a.
Arguments Raise {A} e.

(** [frame[column].iloc[-1]] *)
Definition iloc_last (frame : DataFrame) (column : string) : Res Q :=
  match frame !! column with
  | None => Raise (KeyError column)
  | Some series =>
      match List.rev series with
      | [] => Raise IndexError
      | x :: _ => Ok x
      end
  end.

Module TwoEngineConfig.
Record t := {
  capital : Q;
  enable_engine1 : bool;
  enable_engine2 : bool;
  db_path : string;
  min_turnover_cr : Q;
  auto_log_trades : bool
}.
(** The dataclass defaults. *)
Definition default : t :=
  {| capital := 1000000; enable_engine1 := true; enable_engine2 := true;
     db_path := "trades.db"; min_turnover_cr := 20; auto_log_trades := true |}.
End TwoEngineConfig.

Module RegimeResult.
Record t := {
  direction : Enum;
  score : Q;
  eligible_for_long : bool;
  eligible_for_short : bool;
  index_aligned : bool
}.
End RegimeResult.

Module EligibilityResult.
Record t := { is_eligible : bool; warnings : list string }.
End EligibilityResult.

(** Engine 1's setup (imported as [TradeSetup]). *)
Module TradeSetup.
Record t := {
  direction : string;
  entry_price : Q;
  stop_loss : Q;
  targets : gmap string Q;
  setup_type : Enum
}.
End TradeSetup.

(** Engine 2's setup. *)
Module BigRunnerSetup.
Record t := {
  direction : string;
  entry_price : Q;
  stop_loss : Q;
  partial_exit_target : Q;
  setup_type : Enum;
  trailing_method : Enum
}.
End BigRunnerSetup.

(** The untyped [setup] argument of [_process_setup]. *)
Inductive Setup :=
| Micro (s : TradeSetup.t)
| BigRunner (s : BigRunnerSetup.t).

(** The [engine_type] argument: [analyze_stock] passes one of the two
    literals ["MICRO"] and ["BIG_RUNNER"]. *)
Inductive EngineType := MICRO | BIG_RUNNER.

Definition engine_type_literal (e : EngineType) : string :=
  match e with MICRO => "MICRO" | BIG_RUNNER => "BIG_RUNNER" end.

Module ProbabilityComponents.
Record t := {
  market_score : Q;
  trend_score : Q;
  momentum_score : Q;
  volume_score : Q;
  risk_score : Q;
  final_probability : Q
}.
End ProbabilityComponents.

Module RiskCheckResult.
Record t := { allowed : bool; reason : string }.
End RiskCheckResult.

(** The keyword arguments of the [TradeSignal(...)] call. *)
Module TradeSignal.
Record t := {
  engine_type : string;
  trade_type : string;
  setup_type : string;
  ai_probability : Q;
  entry : Q;
  stoploss : Q;
  target_1 : Q;
  runner_mode : string;
  trailing_method : string;
  risk_per_trade : Q;
  expected_hold : string;
  sector : string;
  index_alignment : string;
  trend_strength : string;
  symbol : string;
  current_price : Q;
  probability_components : gmap string Q
}.
End TradeSignal.

(** The dict [_process_setup] returns for an approved candidate. *)
Module Signal.
Record t := {
  signal : TradeSignal.t;
  text : string;
  json : string;
  probability_details : ProbabilityComponents.t;
  position_size : Z;
  risk_pct : Q
}.
End Signal.

(** Values stored in the dict [analyze_stock] returns. *)
Inductive PyValue :=
| VStr (s : string)
| VStrList (l : list string)
| VFloat (x : Q)
| VBool (b : bool)
| VSignals (l : list Signal.t).

Abbreviation ResultDict := (gmap string PyValue).

(** [result.get('signals')] as the callers test it: missing or empty is
    falsy, that is, no signal. *)
Definition get_signals (result : ResultDict) : list Signal.t :=
  match result !! "signals" with
  | Some (VSignals l) => l
  | _ => []
  end.

(** Values stored in the dict [scan_multiple_stocks] returns. *)
Inductive ScanValue :=
| SInt (n : Z)
| SSignals (l : list Signal.t)
| SResults (m : gmap string ResultDict).

(** The test of line 365, [result.get('status') == 'SUCCESS' and
    result.get('signals')]: a non-empty ['signals'] list under status
    ['SUCCESS']. *)
Definition has_signals_to_collect (result : ResultDict) : bool :=
  match result !! "status" with
  | Some (VStr status) => String.eqb status "SUCCESS"
  | _ => false
  end
  &&
  match result !! "signals" with
  | Some (VSignals (_ :: _)) => true
  | _ => false
  end.

(** *** The call log

    One event per call of a collaborator's method, in program order. *)
Inductive Event :=
| EvFetchStockData (symbol : string)
| EvFetchIndexData (index : string)
| EvGetCurrentVix
| EvUpdateVix (vix : Q)
| EvAnalyzeRegime
| EvValidateStock (symbol : string)
| EvEngine1Scan (stock_data : DataFrame)
| EvEngine2Scan (stock_data : DataFrame)
| EvCalculateProbability (setup_type : string)
| EvMeetsThreshold (prob : Q) (engine_type : EngineType)
| EvCanOpenNewTrade (symbol sector direction : string) (prob : Q) (engine_type : EngineType)
| EvCalculatePositionSize (prob entry stop : Q)
| EvFormatSignal
| EvFormatJson.

Definition is_scan (ev : Event) : bool :=
  match ev with
  | EvEngine1Scan _ | EvEngine2Scan _ => true
  | _ => false
  end.

Definition is_update_vix (ev : Event) : bool :=
  match ev with EvUpdateVix _ => true | _ => false end.

(** Admission ([can_open_new_trade]) and sizing ([calculate_position_size]). *)
Definition is_admission_or_sizing (ev : Event) : bool :=
  match ev with
  | EvCanOpenNewTrade _ _ _ _ _ | EvCalculatePositionSize _ _ _ => true
  | _ => false
  end.

(** The events of the stages after the regime and eligibility gates. *)
Definition is_candidate_stage (ev : Event) : bool :=
  match ev with
  | EvCalculateProbability _ | EvMeetsThreshold _ _
  | EvCanOpenNewTrade _ _ _ _ _ | EvCalculatePositionSize _ _ _
  | EvFormatSignal | EvFormatJson => true
  | _ => false
  end.

(** Every stage that follows data fetching. *)
Definition is_pipeline_stage (ev : Event) : bool :=
  match ev with
  | EvFetchStockData _ | EvFetchIndexData _ | EvGetCurrentVix => false
  | _ => true
  end.

Definition is_engine1_scan (ev : Event) : bool :=
  match ev with EvEngine1Scan _ => true | _ => false end.

Definition is_engine2_scan (ev : Event) : bool :=
  match ev with EvEngine2Scan _ => true | _ => false end.

Definition is_scoring (ev : Event) : bool :=
  match ev with EvCalculateProbability _ => true | _ => false end.

Definition is_admission (ev : Event) : bool :=
  match ev with EvCanOpenNewTrade _ _ _ _ _ => true | _ => false end.

Definition is_sizing (ev : Event) : bool :=
  match ev with EvCalculatePositionSize _ _ _ => true | _ => false end.

Definition is_format_signal (ev : Event) : bool :=
  match ev with EvFormatSignal => true | _ => false end.

Definition is_fetch_stock (ev : Event) : bool :=
  match ev with EvFetchStockData _ => true | _ => false end.

(** The number of logged calls of one kind. *)
Definition calls (kind : Event -> bool) (l : list Event) : nat :=
  length (List.filter kind l).

(** *** Collaborators (their modules are imported, not part of the sources) *)

Record IndianStockDataFetcher := {
  fetch_stock_data : string -> option DataFrame;
  fetch_index_data : string -> option DataFrame;
  get_current_vix : Q
}.

Record MarketRegimeFilter := {
  analyze_regime : DataFrame -> option DataFrame -> RegimeResult.t
}.

(** [validate_stock(symbol, data, setup_type, index_data, sector)] *)
Record StockEligibilityValidator := {
  validate_stock :
    string -> DataFrame -> string -> option DataFrame -> option string ->
    EligibilityResult.t
}.

Record Engine (S : Type) := {
  scan_for_setups : DataFrame -> list S
}.
Arguments scan_for_setups {S} _ _.

(** [calculate_probability(stock_data, index_data, entry_price, stop_loss,
    target_price, risk_pct, setup_type)] *)
Record AIProbabilityScorer := {
  calculate_probability :
    DataFrame -> option DataFrame -> Q -> Q -> Q -> Q -> string ->
    ProbabilityComponents.t
}.

(** The risk governor's methods over its state [Gov] (the PortfolioState):
    each may read and change that state. *)
Record PortfolioRiskGovernor (Gov : Type) := {
  update_vix : Q -> Gov -> Gov;
  can_open_new_trade :
    string -> string -> string -> Q -> EngineType -> Gov -> RiskCheckResult.t * Gov;
  calculate_position_size : Q -> Q -> Q -> Gov -> (Z * Q) * Gov
}.
Arguments update_vix {Gov} _ _ _.
Arguments can_open_new_trade {Gov} _ _ _ _ _ _ _.
Arguments calculate_position_size {Gov} _ _ _ _ _.

Record TradeSignalFormatter := {
  format_signal : TradeSignal.t -> string;
  format_json : TradeSignal.t -> string
}.

(** The attributes [__init__] sets ([trade_db] is not used by the methods
    below). *)
Record TradingSystemOrchestrator (Gov : Type) := {
  config : TwoEngineConfig.t;
  data_fetcher : IndianStockDataFetcher;
  regime_filter : MarketRegimeFilter;
  eligibility_validator : StockEligibilityValidator;
  engine1 : Engine TradeSetup.t;
  engine2 : Engine BigRunnerSetup.t;
  probability_scorer : AIProbabilityScorer;
  risk_governor : PortfolioRiskGovernor Gov;
  signal_formatter : TradeSignalFormatter
}.
Arguments config {Gov} _.
Arguments data_fetcher {Gov} _.
Arguments regime_filter {Gov} _.
Arguments eligibility_validator {Gov} _.
Arguments engine1 {Gov} _.
Arguments engine2 {Gov} _.
Arguments probability_scorer {Gov} _.
Arguments risk_governor {Gov} _.
Arguments signal_formatter {Gov} _.

(** Modelled from the spec: [AIProbabilityScorer.meets_threshold], whose module
    is not part of the sources.  "Micro requires probability >= 70; BigRunner
    requires probability >= 65." *)
Definition meets_threshold (probability : Q) (engine_type : EngineType) : bool :=
  match engine_type with
  | MICRO => Qle_bool 70 probability
  | BIG_RUNNER => Qle_bool 65 probability
  end.


(** *** A concrete orchestrator

    Stand-ins for the collaborators, to run the pipeline on: a three-bar
    frame, a governor that remembers the reading and counts sized trades, a
    Micro scanner with one long setup, and a scorer whose final probability,
    like the regime and the eligibility result, is chosen per scenario. *)

Module Standin.

Record PortfolioState := {
  current_vix : Q;
  sized_trades : nat
}.

Definition governor : PortfolioRiskGovernor PortfolioState :=
  {| update_vix := fun vix st => {| current_vix := vix; sized_trades := sized_trades st |};
     can_open_new_trade := fun _ _ _ _ _ st =>
       ({| RiskCheckResult.allowed := Qle_bool (current_vix st) 25;
           RiskCheckResult.reason := "VIX too high" |}, st);
     calculate_position_size := fun _ _ _ st =>
       ((100%Z, 1%Q), {| current_vix := current_vix st; sized_trades := S (sized_trades st) |}) |}.

Definition fresh_state : PortfolioState := {| current_vix := 0; sized_trades := 0 |}.

Definition frame : DataFrame := {[ "Close" := [100; 101; 102]%Q ]}.

Definition fetcher : IndianStockDataFetcher :=
  {| fetch_stock_data := fun symbol => if String.eqb symbol "DELISTED" then None else Some frame;
     fetch_index_data := fun _ => None;
     get_current_vix := 15 |}.

Definition regime (long short : bool) : RegimeResult.t :=
  {| RegimeResult.direction := {| value := if long then "UP" else "DOWN" |};
     RegimeResult.score := 60;
     RegimeResult.eligible_for_long := long;
     RegimeResult.eligible_for_short := short;
     RegimeResult.index_aligned := long |}.

Definition eligibility (warnings : list string) : EligibilityResult.t :=
  {| EligibilityResult.is_eligible := match warnings with [] => true | _ => false end;
     EligibilityResult.warnings := warnings |}.

Definition pullback : TradeSetup.t :=
  {| TradeSetup.direction := "LONG";
     TradeSetup.entry_price := 102;
     TradeSetup.stop_loss := 100;
     TradeSetup.targets := {[ "0.8R" := 103.6%Q; "1.0R" := 104%Q; "1.3R" := 104.6%Q ]};
     TradeSetup.setup_type := {| value := "PULLBACK" |} |}.

Definition scored (final : Q) : ProbabilityComponents.t :=
  {| ProbabilityComponents.market_score := 80;
     ProbabilityComponents.trend_score := 74;
     ProbabilityComponents.momentum_score := 70;
     ProbabilityComponents.volume_score := 60;
     ProbabilityComponents.risk_score := 65;
     ProbabilityComponents.final_probability := final |}.

Definition orchestrator (long short : bool) (warnings : list string) (final : Q)
    : TradingSystemOrchestrator PortfolioState :=
  {| config := TwoEngineConfig.default;
     data_fetcher := fetcher;
     regime_filter := {| analyze_regime := fun _ _ => regime long short |};
     eligibility_validator := {| validate_stock := fun _ _ _ _ _ => eligibility warnings |};
     engine1 := {| scan_for_setups := fun _ => [pullback] |};
     engine2 := {| scan_for_setups := fun _ => [] |};
     probability_scorer := {| calculate_probability := fun _ _ _ _ _ _ _ => scored final |};
     risk_governor := governor;
     signal_formatter :=
       {| format_signal := fun signal =>
            String.append (TradeSignal.symbol signal)
              (String.append " " (TradeSignal.engine_type signal));
          format_json := fun signal => "{}" |} |}.

(** The same pullback without its ['1.0R'] target. *)
Definition bare_pullback : TradeSetup.t :=
  {| TradeSetup.direction := "LONG";
     TradeSetup.entry_price := 102;
     TradeSetup.stop_loss := 100;
     TradeSetup.targets := {[ "0.8R" := 103.6%Q ]};
     TradeSetup.setup_type := {| value := "PULLBACK" |} |}.

(** The long-regime orchestrator with a configuration and Engine 1 setups of
    one's choice. *)
Definition orchestrator_with (cfg : TwoEngineConfig.t) (setups : list TradeSetup.t)
    (final : Q) : TradingSystemOrchestrator PortfolioState :=
  {| config := cfg;
     data_fetcher := fetcher;
     regime_filter := {| analyze_regime := fun _ _ => regime true false |};
     eligibility_validator := {| validate_stock := fun _ _ _ _ _ => eligibility [] |};
     engine1 := {| scan_for_setups := fun _ => setups |};
     engine2 := {| scan_for_setups := fun _ => [] |};
     probability_scorer := {| calculate_probability := fun _ _ _ _ _ _ _ => scored final |};
     risk_governor := governor;
     signal_formatter :=
       {| format_signal := fun signal => TradeSignal.symbol signal;
          format_json := fun signal => "{}" |} |}.

(** The configuration [main.py] builds (lines 34-39). *)
Definition bot_config : TwoEngineConfig.t :=
  {| TwoEngineConfig.capital := 1000000;
     TwoEngineConfig.enable_engine1 := true;
     TwoEngineConfig.enable_engine2 := true;
     TwoEngineConfig.db_path := "trades.db";
     TwoEngineConfig.min_turnover_cr := 20;
     TwoEngineConfig.auto_log_trades := false |}.

Definition engine1_off : TwoEngineConfig.t :=
  {| TwoEngineConfig.capital := 1000000;
     TwoEngineConfig.enable_engine1 := false;
     TwoEngineConfig.enable_engine2 := true;
     TwoEngineConfig.db_path := "trades.db";
     TwoEngineConfig.min_turnover_cr := 20;
     TwoEngineConfig.auto_log_trades := true |}.

End Standin.

(** *** The orchestrator's computations

    A computation runs on the risk governor's state, returns a value or
    raises, leaves a governor state and appends to the call log. *)

Section Orchestrator.

Context {Gov : Type}.

Record Outcome (A : Type) := {
  res : Res A;
  gov_after : Gov;
  log : list Event
}.
Arguments res {A} _.
Arguments gov_after {A} _.
Arguments log {A} _.

Definition M (A : Type) : Type := Gov -> Outcome A.

Definition ret {A : Type} (a : A) : M A :=
  fun g => {| res := Ok a; gov_after := g; log := [] |}.

Definition raise {A : Type} (e : Exn) : M A :=
  fun g => {| res := Raise e; gov_after := g; log := [] |}.

(** [o], with the calls [l] logged before it. *)
Definition after_log {A : Type} (l : list Event) (o : Outcome A) : Outcome A :=
  match o with
  | Build_Outcome _ r g l' => {| res := r; gov_after := g; log := l ++ l' |}
  end.

(** Sequencing: an exception raised by [m] propagates and [k] is not run. *)
Definition bind {A B : Type} (m : M A) (k : A -> M B) : M B :=
  fun g =>
    match m g with
    | Build_Outcome _ (Ok a) g1 l1 => after_log l1 (k a g1)
    | Build_Outcome _ (Raise e) g1 l1 => {| res := Raise e; gov_after := g1; log := l1 |}
    end.

Notation "x <- m ;; k" := (bind m (fun x => k))
  (at level 100, m at next level, right associativity).
Notation "m ;;; k" := (bind m (fun _ => k))
  (at level 100, right associativity).

(** A call that does not touch the governor. *)
Definition call {A : Type} (ev : Event) (a : A) : M A :=
  fun g => {| res := Ok a; gov_after := g; log := [ev] |}.

(** A call of a governor method. *)
Definition gov_call {A : Type} (ev : Event) (method : Gov -> A * Gov) : M A :=
  fun g => {| res := Ok (fst (method g)); gov_after := snd (method g); log := [ev] |}.

Definition lift {A : Type} (r : Res A) : M A :=
  match r with
  | Ok a => ret a
  | Raise e => raise e
  end.

Variable self : TradingSystemOrchestrator Gov.

(** The local variables [_process_setup] extracts from the setup. *)
Record SetupDetails := {
  d_direction : string;
  d_entry : Q;
  d_stop : Q;
  d_target : Q;
  d_setup_name : string;
  d_expected_hold : string;
  d_runner_mode : string;
  d_trailing_method : string
}.

(** Lines 223-240.  Reading an attribute the setup does not have raises
    [AttributeError]; [setup.targets['1.0R']] raises [KeyError] when the key
    is missing. *)
Definition setup_details (setup : Setup) (engine_type : EngineType) : Res SetupDetails :=
  match engine_type with
  | MICRO =>
      match setup with
      | Micro s =>
          match TradeSetup.targets s !! "1.0R" with
          | None => Raise (KeyError "1.0R")
          | Some target =>
              Ok {| d_direction := TradeSetup.direction s;
                    d_entry := TradeSetup.entry_price s;
                    d_stop := TradeSetup.stop_loss s;
                    d_target := target;
                    d_setup_name := value (TradeSetup.setup_type s);
                    d_expected_hold := "Swing";
                    d_runner_mode := "DISABLED";
                    d_trailing_method := "N/A" |}
          end
      | BigRunner _ => Raise (AttributeError "targets")
      end
  | BIG_RUNNER =>
      match setup with
      | BigRunner s =>
          Ok {| d_direction := BigRunnerSetup.direction s;
                d_entry := BigRunnerSetup.entry_price s;
                d_stop := BigRunnerSetup.stop_loss s;
                d_target := BigRunnerSetup.partial_exit_target s;
                d_setup_name := value (BigRunnerSetup.setup_type s);
                d_expected_hold := "Position";
                d_runner_mode := "ENABLED";
                d_trailing_method := value (BigRunnerSetup.trailing_method s) |}
      | Micro _ => Raise (AttributeError "partial_exit_target")
      end
  end.

(** Lines 291-297: the fixed bands of the trend sub-score. *)
Definition trend_strength_of (trend_score : Q) : string :=
  if Qle_bool 75 trend_score then "Strong"
  else if Qle_bool 50 trend_score then "Medium"
  else "Weak".

(** Line 313: ["YES" if regime_result.index_aligned else "NO"]. *)
Definition index_alignment_of (index_aligned : bool) : string :=
  if index_aligned then "YES" else "NO".

(** Lines 243-251: the scorer's result for the extracted details. *)
Definition probability_of (d : SetupDetails)
    (stock_data : DataFrame) (index_data : option DataFrame) : ProbabilityComponents.t :=
  calculate_probability (probability_scorer self)
    stock_data index_data (d_entry d) (d_stop d) (d_target d) 0.5 (d_setup_name d).

(** Lines 299-324: the [TradeSignal(...)] call. *)
Definition assemble_signal (d : SetupDetails) (engine_type : EngineType)
    (symbol sector : string) (regime_result : RegimeResult.t)
    (probability_result : ProbabilityComponents.t)
    (risk_pct current_price : Q) : TradeSignal.t :=
  {| TradeSignal.engine_type :=
       match engine_type with MICRO => "MICRO-PROFIT" | BIG_RUNNER => "BIG-RUNNER" end;
     TradeSignal.trade_type := d_direction d;
     TradeSignal.setup_type := d_setup_name d;
     TradeSignal.ai_probability := ProbabilityComponents.final_probability probability_result;
     TradeSignal.entry := d_entry d;
     TradeSignal.stoploss := d_stop d;
     TradeSignal.target_1 := d_target d;
     TradeSignal.runner_mode := d_runner_mode d;
     TradeSignal.trailing_method := d_trailing_method d;
     TradeSignal.risk_per_trade := risk_pct;
     TradeSignal.expected_hold := d_expected_hold d;
     TradeSignal.sector := sector;
     TradeSignal.index_alignment := index_alignment_of (RegimeResult.index_aligned regime_result);
     TradeSignal.trend_strength :=
       trend_strength_of (ProbabilityComponents.trend_score probability_result);
     TradeSignal.symbol := symbol;
     TradeSignal.current_price := current_price;
     TradeSignal.probability_components :=
       {[ "market" := ProbabilityComponents.market_score probability_result;
          "trend" := ProbabilityComponents.trend_score probability_result;
          "momentum" := ProbabilityComponents.momentum_score probability_result;
          "volume" := ProbabilityComponents.volume_score probability_result;
          "risk" := ProbabilityComponents.risk_score probability_result ]} |}.

(** [_process_setup]: [None] when the candidate is rejected. *)
Definition _process_setup (setup : Setup) (engine_type : EngineType)
    (symbol sector : string) (stock_data : DataFrame) (index_data : option DataFrame)
    (regime_result : RegimeResult.t) : M (option Signal.t) :=
  d <- lift (setup_details setup engine_type) ;;
  probability_result <-
    call (EvCalculateProbability (d_setup_name d)) (probability_of d stock_data index_data) ;;
  let prob := ProbabilityComponents.final_probability probability_result in
  threshold_met <- call (EvMeetsThreshold prob engine_type) (meets_threshold prob engine_type) ;;
  if negb threshold_met then ret None
  else
    risk_check <-
      gov_call (EvCanOpenNewTrade symbol sector (d_direction d) prob engine_type)
        (can_open_new_trade (risk_governor self) symbol sector (d_direction d) prob engine_type) ;;
    if negb (RiskCheckResult.allowed risk_check) then ret None
    else
      sizing <-
        gov_call (EvCalculatePositionSize prob (d_entry d) (d_stop d))
          (calculate_position_size (risk_governor self) prob (d_entry d) (d_stop d)) ;;
      let shares := fst sizing in
      let risk_pct := snd sizing in
      current_price <- lift (iloc_last stock_data "Close") ;;
      let signal :=
        assemble_signal d engine_type symbol sector regime_result probability_result
          risk_pct current_price in
      signal_text <- call EvFormatSignal (format_signal (signal_formatter self) signal) ;;
      signal_json <- call EvFormatJson (format_json (signal_formatter self) signal) ;;
      ret (Some {| Signal.signal := signal;
                   Signal.text := signal_text;
                   Signal.json := signal_json;
                   Signal.probability_details := probability_result;
                   Signal.position_size := shares;
                   Signal.risk_pct := risk_pct |}).

(** The loops of lines 164-175 and 182-193: each setup is processed in turn
    and an approved signal is appended to [all_signals]. *)
Fixpoint process_setups (setups : list Setup) (engine_type : EngineType)
    (symbol sector : string) (stock_data : DataFrame) (index_data : option DataFrame)
    (regime_result : RegimeResult.t) (all_signals : list Signal.t) : M (list Signal.t) :=
  match setups with
  | [] => ret all_signals
  | setup :: rest =>
      signal <- _process_setup setup engine_type symbol sector stock_data index_data regime_result ;;
      process_setups rest engine_type symbol sector stock_data index_data regime_result
        (match signal with
         | Some s => all_signals ++ [s]
         | None => all_signals
         end)
  end.

(** [sector or "UNKNOWN"]: [None] and the empty string are falsy. *)
Definition sector_or_unknown (sector : option string) : string :=
  match sector with
  | None => "UNKNOWN"
  | Some "" => "UNKNOWN"
  | Some s => s
  end.

Definition analyze_stock (symbol : string) (sector : option string) (index : string)
    : M ResultDict :=
  (* Step 1: fetch data *)
  stock_data <- call (EvFetchStockData symbol) (fetch_stock_data (data_fetcher self) symbol) ;;
  index_data <- call (EvFetchIndexData index) (fetch_index_data (data_fetcher self) index) ;;
  vix <- call EvGetCurrentVix (get_current_vix (data_fetcher self)) ;;
  match stock_data with
  | None =>
      ret {[ "error" := VStr "Failed to fetch stock data"; "symbol" := VStr symbol ]}
  | Some stock_data =>
      gov_call (EvUpdateVix vix) (fun g => (tt, update_vix (risk_governor self) vix g)) ;;;
      (* Step 2: market regime check *)
      regime_result <-
        call EvAnalyzeRegime (analyze_regime (regime_filter self) stock_data index_data) ;;
      if negb (RegimeResult.eligible_for_long regime_result
               || RegimeResult.eligible_for_short regime_result)
      then
        ret {[ "symbol" := VStr symbol;
               "status" := VStr "NO_TRADE";
               "reason" := VStr "Market regime not favorable";
               "regime" := VStr (value (RegimeResult.direction regime_result)) ]}
      else
        (* Step 3: stock eligibility *)
        eligibility_result <-
          call (EvValidateStock symbol)
            (validate_stock (eligibility_validator self)
               symbol stock_data "breakout" index_data sector) ;;
        if negb (EligibilityResult.is_eligible eligibility_result)
        then
          ret {[ "symbol" := VStr symbol;
                 "status" := VStr "NOT_ELIGIBLE";
                 "reason" := VStrList (EligibilityResult.warnings eligibility_result);
                 "regime" := VStr (value (RegimeResult.direction regime_result)) ]}
        else
          (* Step 4: scan for setups *)
          let all_signals := [] in
          all_signals <-
            (if TwoEngineConfig.enable_engine1 (config self)
                && RegimeResult.eligible_for_long regime_result
             then
               engine1_setups <-
                 call (EvEngine1Scan stock_data) (scan_for_setups (engine1 self) stock_data) ;;
               process_setups (map Micro engine1_setups) MICRO symbol
                 (sector_or_unknown sector) stock_data index_data regime_result all_signals
             else ret all_signals) ;;
          all_signals <-
            (if TwoEngineConfig.enable_engine2 (config self)
                && RegimeResult.eligible_for_long regime_result
             then
               engine2_setups <-
                 call (EvEngine2Scan stock_data) (scan_for_setups (engine2 self) stock_data) ;;
               process_setups (map BigRunner engine2_setups) BIG_RUNNER symbol
                 (sector_or_unknown sector) stock_data index_data regime_result all_signals
             else ret all_signals) ;;
          (* Step 5: return results *)
          ret {[ "symbol" := VStr symbol;
                 "status" := VStr "SUCCESS";
                 "regime" := VStr (value (RegimeResult.direction regime_result));
                 "regime_score" := VFloat (RegimeResult.score regime_result);
                 "eligible" := VBool (EligibilityResult.is_eligible eligibility_result);
                 "signals" := VSignals all_signals;
                 "vix" := VFloat vix ]}
  end.

(** The loop of [scan_multiple_stocks] (lines 360-366): every symbol is
    analysed with the sector [sectors.get(symbol, "UNKNOWN")] and the default
    index, its result is stored under the symbol and its signals are
    collected. *)
Fixpoint scan_symbols (symbols : list string) (sectors : gmap string string)
    (all_results : gmap string ResultDict) (all_signals : list Signal.t)
    : M (gmap string ResultDict * list Signal.t) :=
  match symbols with
  | [] => ret (all_results, all_signals)
  | symbol :: rest =>
      let sector := default "UNKNOWN" (sectors !! symbol) in
      result <- analyze_stock symbol (Some sector) "NIFTY" ;;
      scan_symbols rest sectors (<[symbol := result]> all_results)
        (if has_signals_to_collect result
         then all_signals ++ get_signals result
         else all_signals)
  end.

(** [sectors or {}]: a missing mapping is the empty one. *)
Definition scan_multiple_stocks (symbols : list string)
    (sectors : option (gmap string string)) : M (gmap string ScanValue) :=
  let sectors := match sectors with Some d => d | None => ∅ end in
  scanned <- scan_symbols symbols sectors ∅ [] ;;
  ret {[ "total_stocks_scanned" := SInt (Z.of_nat (length symbols));
         "total_signals" := SInt (Z.of_nat (length (snd scanned)));
         "signals" := SSignals (snd scanned);
         "detailed_results" := SResults (fst scanned) ]}.

(** *** Reading a run *)

(** The regime result and the eligibility result [analyze_stock] computes for
    a fetched frame. *)
Definition regime_of (stock_data : DataFrame) (index : string) : RegimeResult.t :=
  analyze_regime (regime_filter self) stock_data
    (fetch_index_data (data_fetcher self) index).

Definition eligibility_of (symbol : string) (stock_data : DataFrame)
    (index : string) (sector : option string) : EligibilityResult.t :=
  validate_stock (eligibility_validator self) symbol stock_data "breakout"
    (fetch_index_data (data_fetcher self) index) sector.

(** The effect of one logged call on the governor's state: only the three
    governor methods have one. *)
Definition gov_step (g : Gov) (ev : Event) : Gov :=
  match ev with
  | EvUpdateVix vix => update_vix (risk_governor self) vix g
  | EvCanOpenNewTrade symbol sector direction prob engine_type =>
      snd (can_open_new_trade (risk_governor self) symbol sector direction prob engine_type g)
  | EvCalculatePositionSize prob entry stop =>
      snd (calculate_position_size (risk_governor self) prob entry stop g)
  | _ => g
  end.

Definition replay (evs : list Event) (g : Gov) : Gov := fold_left gov_step evs g.

(** A computation whose final governor state is its log replayed. *)
Definition log_faithful {A : Type} (m : M A) : Prop :=
  forall g, gov_after (m g) = replay (log (m g)) g.

(** A computation all of whose logged calls satisfy [P]. *)
Definition log_all {A : Type} (P : Event -> bool) (m : M A) : Prop :=
  forall g, forallb P (log (m g)) = true.

(** Steps 4 and 5 of [analyze_stock] (lines 155-206) as a computation of its
    own, for stating lemmas; [analyze_stock_gates_passed] shows that it is
    what [analyze_stock] runs once both gates have passed. *)
Definition scan_and_collect (symbol : string) (sector : option string)
    (stock_data : DataFrame) (index_data : option DataFrame)
    (regime_result : RegimeResult.t) (eligibility_result : EligibilityResult.t)
    (vix : Q) : M ResultDict :=
  bind
    (if TwoEngineConfig.enable_engine1 (config self)
        && RegimeResult.eligible_for_long regime_result
     then
       bind (call (EvEngine1Scan stock_data) (scan_for_setups (engine1 self) stock_data))
         (fun engine1_setups =>
            process_setups (map Micro engine1_setups) MICRO symbol
              (sector_or_unknown sector) stock_data index_data regime_result [])
     else ret [])
    (fun all_signals =>
       bind
         (if TwoEngineConfig.enable_engine2 (config self)
             && RegimeResult.eligible_for_long regime_result
          then
            bind (call (EvEngine2Scan stock_data) (scan_for_setups (engine2 self) stock_data))
              (fun engine2_setups =>
                 process_setups (map BigRunner engine2_setups) BIG_RUNNER symbol
                   (sector_or_unknown sector) stock_data index_data regime_result all_signals)
          else ret all_signals)
         (fun all_signals =>
            ret {[ "symbol" := VStr symbol;
                   "status" := VStr "SUCCESS";
                   "regime" := VStr (value (RegimeResult.direction regime_result));
                   "regime_score" := VFloat (RegimeResult.score regime_result);
                   "eligible" := VBool (EligibilityResult.is_eligible eligibility_result);
                   "signals" := VSignals all_signals;
                   "vix" := VFloat vix ]})).

(** The candidate's probability misses the threshold of its engine. *)
Definition threshold_missed (e : EngineType) (stock_data : DataFrame)
    (index_data : option DataFrame) (setup : Setup) : bool :=
  match setup_details setup e with
  | Ok d =>
      negb (meets_threshold
              (ProbabilityComponents.final_probability
                 (probability_of d stock_data index_data)) e)
  | Raise _ => false
  end.

(** A candidate rejected at the probability stage: [_process_setup] returned
    [None] without reaching the admission check. *)
Definition rejected_at_probability_stage (o : Outcome (option Signal.t)) : Prop :=
  res o = Ok None /\ existsb is_admission_or_sizing (log o) = false.

(** The dict of line 114. *)
Definition error_result (symbol : string) : ResultDict :=
  {[ "error" := VStr "Failed to fetch stock data"; "symbol" := VStr symbol ]}.

(** The symbols the data source has stock data for. *)
Definition has_stock_data (symbol : string) : bool :=
  match fetch_stock_data (data_fetcher self) symbol with
  | Some _ => true
  | None => false
  end.

(** The dict of lines 198-206. *)
Definition success_result (symbol : string) (regime_result : RegimeResult.t)
    (eligibility_result : EligibilityResult.t) (all_signals : list Signal.t) (vix : Q)
    : ResultDict :=
  {[ "symbol" := VStr symbol;
     "status" := VStr "SUCCESS";
     "regime" := VStr (value (RegimeResult.direction regime_result));
     "regime_score" := VFloat (RegimeResult.score regime_result);
     "eligible" := VBool (EligibilityResult.is_eligible eligibility_result);
     "signals" := VSignals all_signals;
     "vix" := VFloat vix ]}.

(** A signal dict read against the Engine 1 setups scanned on [stock_data]:
    it is built from one of them, passed the Micro threshold and carries the
    last close of the frame. *)
Definition micro_signal (symbol sector : string) (stock_data : DataFrame)
    (entry : Signal.t) : Prop :=
  exists s target,
    In s (scan_for_setups (engine1 self) stock_data) /\
    TradeSetup.targets s !! "1.0R" = Some target /\
    TradeSignal.engine_type (Signal.signal entry) = "MICRO-PROFIT" /\
    TradeSignal.symbol (Signal.signal entry) = symbol /\
    TradeSignal.sector (Signal.signal entry) = sector /\
    TradeSignal.trade_type (Signal.signal entry) = TradeSetup.direction s /\
    TradeSignal.setup_type (Signal.signal entry) = value (TradeSetup.setup_type s) /\
    TradeSignal.entry (Signal.signal entry) = TradeSetup.entry_price s /\
    TradeSignal.stoploss (Signal.signal entry) = TradeSetup.stop_loss s /\
    TradeSignal.target_1 (Signal.signal entry) = target /\
    TradeSignal.runner_mode (Signal.signal entry) = "DISABLED" /\
    TradeSignal.trailing_method (Signal.signal entry) = "N/A" /\
    TradeSignal.expected_hold (Signal.signal entry) = "Swing" /\
    TradeSignal.risk_per_trade (Signal.signal entry) = Signal.risk_pct entry /\
    TradeSignal.ai_probability (Signal.signal entry) =
      ProbabilityComponents.final_probability (Signal.probability_details entry) /\
    meets_threshold (TradeSignal.ai_probability (Signal.signal entry)) MICRO = true /\
    iloc_last stock_data "Close" = Ok (TradeSignal.current_price (Signal.signal entry)).

(** The same against the Engine 2 setups. *)
Definition runner_signal (symbol sector : string) (stock_data : DataFrame)
    (entry : Signal.t) : Prop :=
  exists s,
    In s (scan_for_setups (engine2 self) stock_data) /\
    TradeSignal.engine_type (Signal.signal entry) = "BIG-RUNNER" /\
    TradeSignal.symbol (Signal.signal entry) = symbol /\
    TradeSignal.sector (Signal.signal entry) = sector /\
    TradeSignal.trade_type (Signal.signal entry) = BigRunnerSetup.direction s /\
    TradeSignal.setup_type (Signal.signal entry) = value (BigRunnerSetup.setup_type s) /\
    TradeSignal.entry (Signal.signal entry) = BigRunnerSetup.entry_price s /\
    TradeSignal.stoploss (Signal.signal entry) = BigRunnerSetup.stop_loss s /\
    TradeSignal.target_1 (Signal.signal entry) = BigRunnerSetup.partial_exit_target s /\
    TradeSignal.runner_mode (Signal.signal entry) = "ENABLED" /\
    TradeSignal.trailing_method (Signal.signal entry) =
      value (BigRunnerSetup.trailing_method s) /\
    TradeSignal.expected_hold (Signal.signal entry) = "Position" /\
    TradeSignal.risk_per_trade (Signal.signal entry) = Signal.risk_pct entry /\
    TradeSignal.ai_probability (Signal.signal entry) =
      ProbabilityComponents.final_probability (Signal.probability_details entry) /\
    meets_threshold (TradeSignal.ai_probability (Signal.signal entry)) BIG_RUNNER = true /\
    iloc_last stock_data "Close" = Ok (TradeSignal.current_price (Signal.signal entry)).

(** *** Properties of the call log *)

Lemma log_faithful_ret {A} (a : A) : log_faithful (ret a).
Proof. intros g. reflexivity. Qed.

Lemma log_faithful_lift {A} (r : Res A) : log_faithful (lift r).
Proof. destruct r; intros g; reflexivity. Qed.

Lemma log_faithful_call {A} (ev : Event) (a : A) :
  is_update_vix ev = false -> is_admission_or_sizing ev = false ->
  log_faithful (call ev a).
Proof. intros Hu Ha g. destruct ev; try discriminate; reflexivity. Qed.

Lemma log_faithful_bind {A B} (m : M A) (k : A -> M B) :
  log_faithful m -> (forall a, log_faithful (k a)) -> log_faithful (bind m k).
Proof.
  intros Hm Hk g. unfold bind. specialize (Hm g).
  destruct (m g) as [[a|e] g1 l1]; simpl in *; [|exact Hm].
  specialize (Hk a g1). destruct (k a g1) as [r g2 l2]; simpl in *.
  unfold replay in *. now rewrite fold_left_app, <- Hm.
Qed.

Lemma log_all_ret {A} P (a : A) : log_all P (ret a).
Proof. intros g. reflexivity. Qed.

Lemma log_all_lift {A} P (r : Res A) : log_all P (lift r).
Proof. destruct r; intros g; reflexivity. Qed.

Lemma log_all_call {A} (P : Event -> bool) ev (a : A) : P ev = true -> log_all P (call ev a).
Proof. intros H g. simpl. now rewrite H. Qed.

Lemma log_all_gov_call {A} (P : Event -> bool) ev (f : Gov -> A * Gov) :
  P ev = true -> log_all P (gov_call ev f).
Proof. intros H g. simpl. now rewrite H. Qed.

Lemma log_all_bind {A B} P (m : M A) (k : A -> M B) :
  log_all P m -> (forall a, log_all P (k a)) -> log_all P (bind m k).
Proof.
  intros Hm Hk g. unfold bind. specialize (Hm g).
  destruct (m g) as [[a|e] g1 l1]; simpl in *; [|exact Hm].
  specialize (Hk a g1). destruct (k a g1) as [r g2 l2]; simpl in *.
  now rewrite forallb_app, Hm.
Qed.

Lemma log_faithful_update_vix (vix : Q) :
  log_faithful (gov_call (EvUpdateVix vix)
                  (fun g => (tt, update_vix (risk_governor self) vix g))).
Proof. intros g. reflexivity. Qed.

Lemma log_faithful_can_open (symbol sector direction : string) (prob : Q) (e : EngineType) :
  log_faithful (gov_call (EvCanOpenNewTrade symbol sector direction prob e)
                  (can_open_new_trade (risk_governor self) symbol sector direction prob e)).
Proof. intros g. reflexivity. Qed.

Lemma log_faithful_position_size (prob entry stop : Q) :
  log_faithful (gov_call (EvCalculatePositionSize prob entry stop)
                  (calculate_position_size (risk_governor self) prob entry stop)).
Proof. intros g. reflexivity. Qed.

(** Both properties are proved by walking the structure of a computation. *)
Ltac walk_log :=
  repeat first
    [ apply log_all_ret | apply log_all_lift
    | apply log_all_call; reflexivity
    | apply log_all_gov_call; reflexivity
    | apply log_all_bind; [|intros ?]
    | match goal with
      | |- log_all _ (if ?b then _ else _) => destruct b
      | |- log_all _ (match ?x with Some _ => _ | None => _ end) => destruct x
      end ].

Ltac walk_faithful :=
  repeat first
    [ apply log_faithful_ret | apply log_faithful_lift
    | apply log_faithful_call; reflexivity
    | apply log_faithful_update_vix
    | apply log_faithful_can_open
    | apply log_faithful_position_size
    | apply log_faithful_bind; [|intros ?]
    | match goal with
      | |- log_faithful (if ?b then _ else _) => destruct b
      | |- log_faithful (match ?x with Some _ => _ | None => _ end) => destruct x
      end ].

Lemma process_setup_log_all (P : Event -> bool) setup e symbol sector stock_data index_data rr :
  (forall ev, is_candidate_stage ev = true -> P ev = true) ->
  log_all P (_process_setup setup e symbol sector stock_data index_data rr).
Proof.
  intros HP. unfold _process_setup.
  repeat first
    [ apply log_all_ret | apply log_all_lift
    | apply log_all_call; apply HP; reflexivity
    | apply log_all_gov_call; apply HP; reflexivity
    | apply log_all_bind; [|intros ?]
    | match goal with |- log_all _ (if ?b then _ else _) => destruct b end ].
Qed.

Lemma process_setups_log_all (P : Event -> bool) setups e symbol sector stock_data index_data rr acc :
  (forall ev, is_candidate_stage ev = true -> P ev = true) ->
  log_all P (process_setups setups e symbol sector stock_data index_data rr acc).
Proof.
  intros HP. revert acc. induction setups as [|setup rest IH]; intros acc; simpl.
  - apply log_all_ret.
  - apply log_all_bind; [now apply process_setup_log_all|]. intros signal. apply IH.
Qed.

Lemma process_setup_faithful setup e symbol sector stock_data index_data rr :
  log_faithful (_process_setup setup e symbol sector stock_data index_data rr).
Proof. unfold _process_setup. walk_faithful. Qed.

Lemma process_setups_faithful setups e symbol sector stock_data index_data rr acc :
  log_faithful (process_setups setups e symbol sector stock_data index_data rr acc).
Proof.
  revert acc. induction setups as [|setup rest IH]; intros acc; simpl.
  - apply log_faithful_ret.
  - apply log_faithful_bind; [apply process_setup_faithful|]. intros signal. apply IH.
Qed.

Lemma analyze_stock_faithful symbol sector index :
  log_faithful (analyze_stock symbol sector index).
Proof.
  unfold analyze_stock.
  repeat first
    [ apply process_setups_faithful | progress walk_faithful ].
Qed.

Lemma forallb_filter_nil (P R : Event -> bool) (l : list Event) :
  (forall ev, P ev = true -> R ev = false) ->
  forallb P l = true -> List.filter R l = [].
Proof.
  intros HPR. induction l as [|ev l IH]; simpl; [reflexivity|].
  intros [Hev Hl]%andb_prop. rewrite (HPR _ Hev). now apply IH.
Qed.

(** Replaying a log without [update_vix] calls only replays its admission and
    sizing calls. *)
Lemma replay_admission_sizing (l : list Event) (g : Gov) :
  forallb (fun ev => negb (is_update_vix ev)) l = true ->
  replay l g = replay (List.filter is_admission_or_sizing l) g.
Proof.
  revert g. induction l as [|ev l IH]; intros g; simpl; [reflexivity|].
  intros [Hev Hl]%andb_prop.
  destruct ev; simpl in *; try discriminate; now apply IH.
Qed.

(** C3, as the code has it.  When the data source returns no stock data,
    [analyze_stock] returns the dict [{'error': 'Failed to fetch stock data',
    'symbol': symbol}], which has no ['status'] entry; only the three fetches
    have been called (no pipeline stage runs) and the governor is untouched. *)
Theorem no_stock_data_returns_error_dict
    (symbol : string) (sector : option string) (index : string) (g : Gov) :
  fetch_stock_data (data_fetcher self) symbol = None ->
  let o := analyze_stock symbol sector index g in
  res o = Ok {[ "error" := VStr "Failed to fetch stock data"; "symbol" := VStr symbol ]} /\
  (forall result, res o = Ok result ->
     result !! "error" = Some (VStr "Failed to fetch stock data") /\
     result !! "symbol" = Some (VStr symbol) /\
     result !! "status" = None /\
     get_signals result = []) /\
  log o = [EvFetchStockData symbol; EvFetchIndexData index; EvGetCurrentVix] /\
  existsb is_pipeline_stage (log o) = false /\
  gov_after o = g.
Proof.
  intros Hnone o. subst o. unfold analyze_stock.
  cbn [bind call ret after_log app]. rewrite Hnone.
  cbn [ret after_log app res log gov_after existsb is_pipeline_stage orb].
  repeat split; try reflexivity.
  all: injection H as <-; vm_compute; reflexivity.
Qed.

(** C1.  When stock data is available and the regime result has
    [eligible_for_long = false] and [eligible_for_short = false],
    [analyze_stock] returns a dict with status ['NO_TRADE'] and the regime
    direction, carrying no signals; the calls made are the three fetches,
    [update_vix] and [analyze_regime], so neither scanner (nor any later
    stage) is invoked. *)
Theorem regime_ineligible_returns_no_trade
    (symbol : string) (sector : option string) (index : string) (g : Gov)
    (stock_data : DataFrame) :
  fetch_stock_data (data_fetcher self) symbol = Some stock_data ->
  RegimeResult.eligible_for_long (regime_of stock_data index) = false ->
  RegimeResult.eligible_for_short (regime_of stock_data index) = false ->
  let o := analyze_stock symbol sector index g in
  exists result,
    res o = Ok result /\
    result !! "status" = Some (VStr "NO_TRADE") /\
    result !! "regime" =
      Some (VStr (value (RegimeResult.direction (regime_of stock_data index)))) /\
    result !! "signals" = None /\
    get_signals result = [] /\
    log o = [EvFetchStockData symbol; EvFetchIndexData index; EvGetCurrentVix;
             EvUpdateVix (get_current_vix (data_fetcher self)); EvAnalyzeRegime] /\
    existsb is_scan (log o) = false /\
    existsb is_candidate_stage (log o) = false.
Proof.
  intros Hdata Hlong Hshort o. subst o. unfold regime_of in *.
  unfold analyze_stock. cbn [bind call ret gov_call after_log app fst snd].
  rewrite Hdata. cbn [bind call ret gov_call after_log app fst snd].
  rewrite Hlong, Hshort. cbn [orb negb ret after_log app res log].
  eexists. split; [reflexivity|].
  repeat split; vm_compute; reflexivity.
Qed.

(** C6.  When stock data is available, the regime gate passes and the
    eligibility check fails, [analyze_stock] returns a dict with status
    ['NOT_ELIGIBLE'], the regime direction, and, under ['reason'], the whole
    [warnings] sequence of the eligibility result, unchanged; no scanner and
    no later stage is invoked. *)
Theorem not_eligible_returns_all_warnings
    (symbol : string) (sector : option string) (index : string) (g : Gov)
    (stock_data : DataFrame) :
  fetch_stock_data (data_fetcher self) symbol = Some stock_data ->
  RegimeResult.eligible_for_long (regime_of stock_data index)
    || RegimeResult.eligible_for_short (regime_of stock_data index) = true ->
  EligibilityResult.is_eligible (eligibility_of symbol stock_data index sector) = false ->
  let o := analyze_stock symbol sector index g in
  exists result,
    res o = Ok result /\
    result !! "status" = Some (VStr "NOT_ELIGIBLE") /\
    result !! "reason" =
      Some (VStrList (EligibilityResult.warnings
                        (eligibility_of symbol stock_data index sector))) /\
    result !! "regime" =
      Some (VStr (value (RegimeResult.direction (regime_of stock_data index)))) /\
    get_signals result = [] /\
    log o = [EvFetchStockData symbol; EvFetchIndexData index; EvGetCurrentVix;
             EvUpdateVix (get_current_vix (data_fetcher self)); EvAnalyzeRegime;
             EvValidateStock symbol] /\
    existsb is_scan (log o) = false /\
    existsb is_candidate_stage (log o) = false.
Proof.
  intros Hdata Hgate Helig o. subst o. unfold regime_of, eligibility_of in *.
  unfold analyze_stock. cbn [bind call ret gov_call after_log app fst snd].
  rewrite Hdata. cbn [bind call ret gov_call after_log app fst snd].
  rewrite Hgate. cbn [negb bind call ret after_log app].
  rewrite Helig. cbn [negb ret after_log app res log].
  eexists. split; [reflexivity|].
  repeat split; vm_compute; reflexivity.
Qed.

(** C9.  A call of [analyze_stock] that obtains stock data logs the three
    fetches and then [update_vix] with the reading just fetched; no other
    [update_vix] follows; and the governor's final state is that update
    followed by the admission ([can_open_new_trade]) and sizing
    ([calculate_position_size]) calls of the rest of the run, in order: no
    other step of the pipeline changes the governor's state. *)
Theorem update_vix_first_then_admission_and_sizing_only
    (symbol : string) (sector : option string) (index : string) (g : Gov)
    (stock_data : DataFrame) :
  fetch_stock_data (data_fetcher self) symbol = Some stock_data ->
  let o := analyze_stock symbol sector index g in
  let vix := get_current_vix (data_fetcher self) in
  exists rest,
    log o = [EvFetchStockData symbol; EvFetchIndexData index; EvGetCurrentVix;
             EvUpdateVix vix] ++ rest /\
    existsb is_update_vix rest = false /\
    gov_after o =
      replay (List.filter is_admission_or_sizing rest)
        (update_vix (risk_governor self) vix g) /\
    gov_after o = replay (log o) g.
Proof.
  intros Hdata o vix.
  assert (Hall : gov_after o = replay (log o) g) by apply analyze_stock_faithful.
  revert Hall. subst o vix. unfold analyze_stock.
  cbn [bind call ret gov_call after_log app fst snd]. rewrite Hdata.
  cbn [bind call ret gov_call after_log app fst snd].
  match goal with
  | |- context [after_log [EvAnalyzeRegime] (?m ?g')] => set (rest_of_run := m); set (g1 := g')
  end.
  assert (Hno : log_all (fun ev => negb (is_update_vix ev)) rest_of_run).
  { subst rest_of_run.
    repeat first
      [ apply process_setups_log_all; intros [] ?; (discriminate || reflexivity)
      | progress walk_log ]. }
  assert (Hf : log_faithful rest_of_run).
  { subst rest_of_run.
    repeat first [ apply process_setups_faithful | progress walk_faithful ]. }
  specialize (Hno g1). specialize (Hf g1).
  destruct (rest_of_run g1) as [r g2 l2]. cbn in *. intros Hall.
  exists (EvAnalyzeRegime :: l2). repeat split; try assumption.
  - clear -Hno. cbn. induction l2 as [|ev l IH]; simpl in *; [reflexivity|].
    apply andb_prop in Hno as [Hev Hl]. destruct (is_update_vix ev); [discriminate|]. now apply IH.
  - rewrite Hf. cbn. now apply replay_admission_sizing.
Qed.

(** *** [_process_setup], case by case *)

Lemma process_setup_raises setup e symbol sector stock_data index_data rr g exn :
  setup_details setup e = Raise exn ->
  _process_setup setup e symbol sector stock_data index_data rr g =
    {| res := Raise exn; gov_after := g; log := [] |}.
Proof. intros H. unfold _process_setup. rewrite H. reflexivity. Qed.

(** Lines 258-262: the probability gate rejects. *)
Lemma process_setup_threshold_miss setup e symbol sector stock_data index_data rr g d :
  setup_details setup e = Ok d ->
  meets_threshold
    (ProbabilityComponents.final_probability (probability_of d stock_data index_data)) e = false ->
  _process_setup setup e symbol sector stock_data index_data rr g =
    {| res := Ok None; gov_after := g;
       log := [EvCalculateProbability (d_setup_name d);
               EvMeetsThreshold
                 (ProbabilityComponents.final_probability
                    (probability_of d stock_data index_data)) e] |}.
Proof.
  intros H Hm. unfold _process_setup. rewrite H.
  cbn [lift bind ret call after_log app]. rewrite Hm. reflexivity.
Qed.

(** Lines 264-273: the probability gate passes and admission is consulted. *)
Lemma process_setup_threshold_met setup e symbol sector stock_data index_data rr g d :
  setup_details setup e = Ok d ->
  meets_threshold
    (ProbabilityComponents.final_probability (probability_of d stock_data index_data)) e = true ->
  exists later,
    log (_process_setup setup e symbol sector stock_data index_data rr g) =
      [EvCalculateProbability (d_setup_name d);
       EvMeetsThreshold
         (ProbabilityComponents.final_probability
            (probability_of d stock_data index_data)) e;
       EvCanOpenNewTrade symbol sector (d_direction d)
         (ProbabilityComponents.final_probability
            (probability_of d stock_data index_data)) e] ++ later.
Proof.
  intros H Hm. unfold _process_setup. rewrite H.
  cbn [lift bind ret call after_log app]. rewrite Hm.
  cbn [negb bind gov_call after_log app].
  match goal with
  | |- context [after_log [EvCanOpenNewTrade _ _ _ _ _] ?o] => destruct o as [r g' l]
  end.
  cbn. eauto.
Qed.

(** An approved candidate: what the returned dict holds. *)
Lemma process_setup_approved setup e symbol sector stock_data index_data rr g entry :
  res (_process_setup setup e symbol sector stock_data index_data rr g) = Ok (Some entry) ->
  exists d risk_pct current_price,
    setup_details setup e = Ok d /\
    meets_threshold
      (ProbabilityComponents.final_probability (probability_of d stock_data index_data)) e = true /\
    iloc_last stock_data "Close" = Ok current_price /\
    Signal.probability_details entry = probability_of d stock_data index_data /\
    Signal.risk_pct entry = risk_pct /\
    Signal.signal entry =
      assemble_signal d e symbol sector rr (probability_of d stock_data index_data)
        risk_pct current_price.
Proof.
  unfold _process_setup.
  destruct (setup_details setup e) as [d|exn] eqn:Hd; [|discriminate].
  cbn [lift bind ret call after_log app].
  destruct (meets_threshold _ e) eqn:Hm; [|discriminate].
  cbn [negb bind gov_call ret call after_log app fst snd].
  destruct (RiskCheckResult.allowed _); [|discriminate].
  cbn [negb bind gov_call ret call after_log app fst snd].
  destruct (iloc_last stock_data "Close") as [price|exn] eqn:Hp; [|discriminate].
  cbn [lift bind gov_call ret call after_log app fst snd res].
  intros [= <-]. exists d. eexists. exists price.
  repeat split; try assumption; reflexivity.
Qed.

(** *** The stages after the two gates *)

Lemma res_after_log {A} (l : list Event) (o : Outcome A) : res (after_log l o) = res o.
Proof. now destruct o. Qed.

Lemma log_after_log {A} (l : list Event) (o : Outcome A) : log (after_log l o) = l ++ log o.
Proof. now destruct o. Qed.

Lemma gov_after_after_log {A} (l : list Event) (o : Outcome A) :
  gov_after (after_log l o) = gov_after o.
Proof. now destruct o. Qed.

Lemma after_log_after_log {A} (l1 l2 : list Event) (o : Outcome A) :
  after_log l1 (after_log l2 o) = after_log (l1 ++ l2) o.
Proof. destruct o. simpl. now rewrite app_assoc. Qed.

Lemma analyze_stock_gates_passed symbol sector index g stock_data :
  fetch_stock_data (data_fetcher self) symbol = Some stock_data ->
  RegimeResult.eligible_for_long (regime_of stock_data index)
    || RegimeResult.eligible_for_short (regime_of stock_data index) = true ->
  EligibilityResult.is_eligible (eligibility_of symbol stock_data index sector) = true ->
  analyze_stock symbol sector index g =
    after_log
      [EvFetchStockData symbol; EvFetchIndexData index; EvGetCurrentVix;
       EvUpdateVix (get_current_vix (data_fetcher self)); EvAnalyzeRegime;
       EvValidateStock symbol]
      (scan_and_collect symbol sector stock_data
         (fetch_index_data (data_fetcher self) index)
         (regime_of stock_data index)
         (eligibility_of symbol stock_data index sector)
         (get_current_vix (data_fetcher self))
         (update_vix (risk_governor self) (get_current_vix (data_fetcher self)) g)).
Proof.
  intros Hdata Hgate Helig. unfold regime_of, eligibility_of in *.
  unfold analyze_stock. cbn [bind call ret gov_call after_log app fst snd].
  rewrite Hdata. cbn [bind call ret gov_call after_log app fst snd].
  rewrite Hgate. cbn [negb bind call ret after_log app].
  unfold scan_and_collect. rewrite Helig. cbn [negb].
  rewrite !after_log_after_log. cbn [app]. reflexivity.
Qed.

(** Whatever the scanners found, a run of steps 4 and 5 that returns, returns
    a ['SUCCESS'] dict with a ['signals'] sequence. *)
Lemma scan_and_collect_status symbol sector stock_data index_data rr er vix g result :
  res (scan_and_collect symbol sector stock_data index_data rr er vix g) = Ok result ->
  result !! "status" = Some (VStr "SUCCESS") /\
  result !! "regime" = Some (VStr (value (RegimeResult.direction rr))) /\
  exists signals, result !! "signals" = Some (VSignals signals).
Proof.
  unfold scan_and_collect.
  destruct (TwoEngineConfig.enable_engine1 (config self) && RegimeResult.eligible_for_long rr);
    destruct (TwoEngineConfig.enable_engine2 (config self) && RegimeResult.eligible_for_long rr);
    unfold bind; cbn [call ret after_log app res];
    repeat match goal with
      | |- context [process_setups ?a ?b ?c ?d ?e ?f ?h ?i ?g'] =>
          destruct (process_setups a b c d e f h i g') as [[?sigs|?exn] ?g1 ?l1];
          cbn [bind call ret after_log app res]
      end;
    try discriminate;
    intros [= <-]; (split; [|split]); try (vm_compute; reflexivity);
    eexists; vm_compute; reflexivity.
Qed.

(** The scanner calls of steps 4 and 5 when both engines are enabled: both
    conditions test [eligible_for_long]. *)
Lemma scan_and_collect_scans symbol sector stock_data index_data rr er vix g :
  TwoEngineConfig.enable_engine1 (config self) = true ->
  TwoEngineConfig.enable_engine2 (config self) = true ->
  let o := scan_and_collect symbol sector stock_data index_data rr er vix g in
  if RegimeResult.eligible_for_long rr
  then
    (exists later, log o = EvEngine1Scan stock_data :: later) /\
    (forall result, res o = Ok result ->
       List.filter is_scan (log o) = [EvEngine1Scan stock_data; EvEngine2Scan stock_data])
  else
    log o = [] /\ gov_after o = g /\
    exists result, res o = Ok result /\ result !! "signals" = Some (VSignals []).
Proof.
  intros H1 H2 o. subst o. unfold scan_and_collect. rewrite H1, H2.
  destruct (RegimeResult.eligible_for_long rr); unfold bind; cbn [andb call ret after_log app].
  - pose proof (process_setups_log_all is_candidate_stage
                  (map Micro (scan_for_setups (engine1 self) stock_data)) MICRO symbol
                  (sector_or_unknown sector) stock_data index_data rr []
                  (fun ev H => H) g) as Hl1.
    destruct (process_setups (map Micro _) MICRO _ _ _ _ _ _ g) as [[sigs|exn] g1 l1];
      cbn [bind call ret after_log app res log] in *.
    + pose proof (process_setups_log_all is_candidate_stage
                    (map BigRunner (scan_for_setups (engine2 self) stock_data)) BIG_RUNNER
                    symbol (sector_or_unknown sector) stock_data index_data rr sigs
                    (fun ev H => H) g1) as Hl2.
      destruct (process_setups (map BigRunner _) BIG_RUNNER _ _ _ _ _ _ g1) as [[sigs2|exn] g2 l2];
        cbn [bind call ret after_log app res log] in *.
      * split; [eauto|]. intros result _.
        assert (Hf : forall l, forallb is_candidate_stage l = true -> List.filter is_scan l = []).
        { intros l. apply forallb_filter_nil. now intros []. }
        cbn [List.filter is_scan]. rewrite !List.filter_app. cbn [List.filter is_scan].
        rewrite !List.filter_app. cbn [List.filter is_scan].
        rewrite (Hf _ Hl1), (Hf _ Hl2). reflexivity.
      * split; [eauto|]. intros result [=].
    + split; [eauto|]. intros result [=].
  - repeat split. eexists. split; [reflexivity|]. vm_compute. reflexivity.
Qed.

(** C2, as the code has it.  With stock data, both gates passed and both
    engines enabled, the scanners are called exactly when the regime has
    [eligible_for_long]: then the Micro scanner is called on the frame and,
    in a run that returns, so is the BigRunner scanner after it; when the
    regime is eligible for short only, no scanner is called and the result is
    a ['SUCCESS'] dict with an empty ['signals'] sequence. *)
Theorem scanners_run_iff_long_eligible
    (symbol : string) (sector : option string) (index : string) (g : Gov)
    (stock_data : DataFrame) :
  fetch_stock_data (data_fetcher self) symbol = Some stock_data ->
  RegimeResult.eligible_for_long (regime_of stock_data index)
    || RegimeResult.eligible_for_short (regime_of stock_data index) = true ->
  EligibilityResult.is_eligible (eligibility_of symbol stock_data index sector) = true ->
  TwoEngineConfig.enable_engine1 (config self) = true ->
  TwoEngineConfig.enable_engine2 (config self) = true ->
  let o := analyze_stock symbol sector index g in
  if RegimeResult.eligible_for_long (regime_of stock_data index)
  then
    In (EvEngine1Scan stock_data) (log o) /\
    (forall result, res o = Ok result ->
       List.filter is_scan (log o) = [EvEngine1Scan stock_data; EvEngine2Scan stock_data])
  else
    List.filter is_scan (log o) = [] /\
    exists result,
      res o = Ok result /\
      result !! "status" = Some (VStr "SUCCESS") /\
      result !! "signals" = Some (VSignals []).
Proof.
  intros Hdata Hgate Helig H1 H2 o. subst o.
  rewrite (analyze_stock_gates_passed _ _ _ _ _ Hdata Hgate Helig).
  rewrite res_after_log, log_after_log.
  pose proof (scan_and_collect_scans symbol sector stock_data
                (fetch_index_data (data_fetcher self) index)
                (regime_of stock_data index)
                (eligibility_of symbol stock_data index sector)
                (get_current_vix (data_fetcher self))
                (update_vix (risk_governor self) (get_current_vix (data_fetcher self)) g)
                H1 H2) as Hscan.
  cbv zeta in Hscan.
  destruct (RegimeResult.eligible_for_long (regime_of stock_data index)).
  - destruct Hscan as [[later Hlater] Hboth]. split.
    + rewrite Hlater. apply in_or_app. right. now left.
    + intros result Hres. rewrite List.filter_app, (Hboth _ Hres). reflexivity.
  - destruct Hscan as (Hlog & _ & result & Hres & Hsig). split.
    + rewrite Hlog. reflexivity.
    + exists result. split; [assumption|]. split; [|assumption].
      now apply scan_and_collect_status in Hres as [? _].
Qed.

Lemma process_setup_missed setup e symbol sector stock_data index_data rr g :
  threshold_missed e stock_data index_data setup = true ->
  exists d,
    setup_details setup e = Ok d /\
    _process_setup setup e symbol sector stock_data index_data rr g =
      {| res := Ok None; gov_after := g;
         log := [EvCalculateProbability (d_setup_name d);
                 EvMeetsThreshold
                   (ProbabilityComponents.final_probability
                      (probability_of d stock_data index_data)) e] |}.
Proof.
  unfold threshold_missed. destruct (setup_details setup e) as [d|exn] eqn:Hd; [|discriminate].
  intros Hm%negb_true_iff. exists d. split; [reflexivity|].
  now apply process_setup_threshold_miss.
Qed.

Lemma process_setups_all_missed setups e symbol sector stock_data index_data rr acc g :
  forallb (threshold_missed e stock_data index_data) setups = true ->
  res (process_setups setups e symbol sector stock_data index_data rr acc g) = Ok acc /\
  gov_after (process_setups setups e symbol sector stock_data index_data rr acc g) = g.
Proof.
  induction setups as [|setup rest IH]; simpl; [now split|].
  intros [Hs Hrest]%andb_prop.
  destruct (process_setup_missed setup e symbol sector stock_data index_data rr g Hs)
    as (d & _ & Heq).
  unfold bind. rewrite Heq. rewrite res_after_log, gov_after_after_log. now apply IH.
Qed.

(** C5.  A candidate whose probability misses its engine's threshold is
    dropped alone: [_process_setup] returns [None] for it without consulting
    or changing the governor, and the loop goes on with the remaining
    candidates exactly as if it had not been there (its two logged calls
    apart).  The symbol's result, once both gates have passed, is a
    ['SUCCESS'] dict with a ['signals'] sequence whenever the run returns, and
    that sequence is empty when every candidate misses its threshold. *)
Theorem threshold_miss_drops_candidate_only :
  (forall setup rest e symbol sector stock_data index_data rr acc g,
     threshold_missed e stock_data index_data setup = true ->
     let one := _process_setup setup e symbol sector stock_data index_data rr g in
     let all := process_setups (setup :: rest) e symbol sector stock_data index_data rr acc g in
     let others := process_setups rest e symbol sector stock_data index_data rr acc g in
     res one = Ok None /\
     gov_after one = g /\
     existsb is_admission_or_sizing (log one) = false /\
     res all = res others /\
     gov_after all = gov_after others /\
     log all = log one ++ log others) /\
  (forall symbol sector index g stock_data,
     fetch_stock_data (data_fetcher self) symbol = Some stock_data ->
     RegimeResult.eligible_for_long (regime_of stock_data index)
       || RegimeResult.eligible_for_short (regime_of stock_data index) = true ->
     EligibilityResult.is_eligible (eligibility_of symbol stock_data index sector) = true ->
     let o := analyze_stock symbol sector index g in
     let index_data := fetch_index_data (data_fetcher self) index in
     (forall result, res o = Ok result ->
        result !! "status" = Some (VStr "SUCCESS") /\
        exists signals, result !! "signals" = Some (VSignals signals)) /\
     (forallb (threshold_missed MICRO stock_data index_data)
        (map Micro (scan_for_setups (engine1 self) stock_data)) = true ->
      forallb (threshold_missed BIG_RUNNER stock_data index_data)
        (map BigRunner (scan_for_setups (engine2 self) stock_data)) = true ->
      exists result,
        res o = Ok result /\
        result !! "status" = Some (VStr "SUCCESS") /\
        result !! "signals" = Some (VSignals []) /\
        length (get_signals result) = 0%nat)).
Proof.
  split.
  - intros setup rest e symbol sector stock_data index_data rr acc g Hmiss one all others.
    destruct (process_setup_missed setup e symbol sector stock_data index_data rr g Hmiss)
      as (d & _ & Heq).
    subst one all others. cbn [process_setups]. unfold bind at 1 2 3. rewrite Heq.
    cbn [res gov_after log existsb is_admission_or_sizing orb].
    rewrite res_after_log, gov_after_after_log, log_after_log. repeat split; reflexivity.
  - intros symbol sector index g stock_data Hdata Hgate Helig o index_data. subst o index_data.
    rewrite (analyze_stock_gates_passed _ _ _ _ _ Hdata Hgate Helig).
    rewrite res_after_log. split.
    + intros result Hres. apply scan_and_collect_status in Hres as (Hst & _ & Hsig).
      now split.
    + intros Hm1 Hm2. unfold scan_and_collect, bind.
      set (g1 := update_vix _ _ g).
      destruct (TwoEngineConfig.enable_engine1 (config self)
                && RegimeResult.eligible_for_long (regime_of stock_data index));
        destruct (TwoEngineConfig.enable_engine2 (config self)
                  && RegimeResult.eligible_for_long (regime_of stock_data index));
        cbn [call ret after_log app res];
        repeat match goal with
          | |- context [process_setups (map ?c ?l) ?b ?s ?d ?e ?f ?h ?i ?g'] =>
              let H := fresh "Hloop" in
              pose proof (process_setups_all_missed (map c l) b s d e f h i g') as H;
              destruct (process_setups (map c l) b s d e f h i g') as [?r ?g2 ?l2];
              cbn [res gov_after] in H;
              first [ destruct (H Hm1) as [-> ->] | destruct (H Hm2) as [-> ->] ]; clear H;
              cbn [call ret after_log app res]
          end;
        eexists; (split; [reflexivity|]); repeat split; vm_compute; reflexivity.
Qed.

(** *** Thresholds and bands *)

Lemma Qle_bool_false (x y : Q) : Qle_bool x y = false <-> (y < x)%Q.
Proof.
  split.
  - intros H. apply Qnot_le_lt. intros Hle. apply Qle_bool_iff in Hle. congruence.
  - intros Hlt. destruct (Qle_bool x y) eqn:E; [|reflexivity].
    apply Qle_bool_iff in E. exfalso. exact (Qlt_not_le _ _ Hlt E).
Qed.

(** C4.  [meets_threshold] holds for a Micro candidate exactly when its
    probability is at least 70 and for a BigRunner candidate exactly when it
    is at least 65, with the four boundary values of the specification; and a
    candidate whose details were extracted is rejected at the probability
    stage of [_process_setup] exactly when [meets_threshold] is false for its
    computed probability. *)
Theorem meets_threshold_is_the_probability_gate :
  (forall p : Q, meets_threshold p MICRO = true <-> (70 <= p)%Q) /\
  (forall p : Q, meets_threshold p BIG_RUNNER = true <-> (65 <= p)%Q) /\
  meets_threshold 69.9 MICRO = false /\
  meets_threshold 70.0 MICRO = true /\
  meets_threshold 64.9 BIG_RUNNER = false /\
  meets_threshold 65.0 BIG_RUNNER = true /\
  (forall setup e symbol sector stock_data index_data rr g d,
     setup_details setup e = Ok d ->
     rejected_at_probability_stage
       (_process_setup setup e symbol sector stock_data index_data rr g) <->
     meets_threshold
       (ProbabilityComponents.final_probability (probability_of d stock_data index_data)) e
     = false).
Proof.
  split; [intros p; apply Qle_bool_iff|].
  split; [intros p; apply Qle_bool_iff|].
  do 4 (split; [reflexivity|]).
  intros setup e symbol sector stock_data index_data rr g d Hd. split.
  - intros [Hres Hlog].
    destruct (meets_threshold _ e) eqn:Hm; [|reflexivity]. exfalso.
    destruct (process_setup_threshold_met setup e symbol sector stock_data index_data rr g d Hd Hm)
      as [later Hlater].
    rewrite Hlater in Hlog. cbn in Hlog. discriminate.
  - intros Hm. unfold rejected_at_probability_stage.
    rewrite (process_setup_threshold_miss setup e symbol sector stock_data index_data rr g d Hd Hm).
    split; reflexivity.
Qed.

(** C7.  The [trend_strength] stored in an assembled trade signal is the band
    of the trend sub-score: ["Strong"] from 75, ["Medium"] from 50 and below
    75, ["Weak"] below 50; 75 is ["Strong"], 74 and 50 are ["Medium"], 49 is
    ["Weak"]. *)
Theorem trend_strength_bands :
  (forall setup e symbol sector stock_data index_data rr g entry,
     res (_process_setup setup e symbol sector stock_data index_data rr g) = Ok (Some entry) ->
     TradeSignal.trend_strength (Signal.signal entry) =
       trend_strength_of (ProbabilityComponents.trend_score (Signal.probability_details entry))) /\
  (forall t : Q, (75 <= t)%Q -> trend_strength_of t = "Strong") /\
  (forall t : Q, (50 <= t)%Q -> (t < 75)%Q -> trend_strength_of t = "Medium") /\
  (forall t : Q, (t < 50)%Q -> trend_strength_of t = "Weak") /\
  trend_strength_of 75 = "Strong" /\
  trend_strength_of 74 = "Medium" /\
  trend_strength_of 50 = "Medium" /\
  trend_strength_of 49 = "Weak".
Proof.
  split; [|split; [|split; [|split]]].
  - intros setup e symbol sector stock_data index_data rr g entry Hres.
    apply process_setup_approved in Hres
      as (d & risk_pct & price & _ & _ & _ & Hdetails & _ & Hsignal).
    rewrite Hsignal, Hdetails. reflexivity.
  - intros t H75. unfold trend_strength_of.
    apply Qle_bool_iff in H75. now rewrite H75.
  - intros t H50 H75. unfold trend_strength_of.
    apply Qle_bool_iff in H50. apply Qle_bool_false in H75. now rewrite H75, H50.
  - intros t H50. unfold trend_strength_of.
    assert (H75 : (t < 75)%Q) by (eapply Qlt_trans; [exact H50|reflexivity]).
    apply Qle_bool_false in H50, H75. now rewrite H75, H50.
  - repeat split; reflexivity.
Qed.

(** C8.  For an approved candidate, the trend score kept under ['trend'] in
    the signal's [probability_components] gives back, through the fixed
    bands, the [trend_strength] stored in the same signal, and the regime's
    [index_aligned] flag gives back its [index_alignment]: the stored
    [index_alignment] is ['YES'] exactly when [index_aligned] is true and
    ['NO'] exactly when it is false, and the stored [trend_strength] is
    ['Strong'] exactly when the stored trend score is at least 75, ['Medium']
    exactly when it is at least 50 and below 75, ['Weak'] exactly when it is
    below 50. *)
Theorem assembled_signal_round_trip
    (setup : Setup) (e : EngineType) (symbol sector : string) (stock_data : DataFrame)
    (index_data : option DataFrame) (rr : RegimeResult.t) (g : Gov) (entry : Signal.t) :
  res (_process_setup setup e symbol sector stock_data index_data rr g) = Ok (Some entry) ->
  let signal := Signal.signal entry in
  exists trend : Q,
    TradeSignal.probability_components signal !! "trend" = Some trend /\
    trend_strength_of trend = TradeSignal.trend_strength signal /\
    index_alignment_of (RegimeResult.index_aligned rr) = TradeSignal.index_alignment signal /\
    (TradeSignal.index_alignment signal = "YES" <-> RegimeResult.index_aligned rr = true) /\
    (TradeSignal.index_alignment signal = "NO" <-> RegimeResult.index_aligned rr = false) /\
    (TradeSignal.trend_strength signal = "Strong" <-> (75 <= trend)%Q) /\
    (TradeSignal.trend_strength signal = "Medium" <-> (50 <= trend)%Q /\ (trend < 75)%Q) /\
    (TradeSignal.trend_strength signal = "Weak" <-> (trend < 50)%Q).
Proof.
  intros Hres signal. subst signal.
  apply process_setup_approved in Hres
    as (d & risk_pct & price & _ & _ & _ & _ & _ & Hsignal).
  rewrite Hsignal.
  exists (ProbabilityComponents.trend_score (probability_of d stock_data index_data)).
  cbn [assemble_signal TradeSignal.probability_components TradeSignal.trend_strength
       TradeSignal.index_alignment].
  split; [vm_compute; reflexivity|]. split; [reflexivity|]. split; [reflexivity|].
  split; [|split].
  - unfold index_alignment_of.
    destruct (RegimeResult.index_aligned rr); split; intros H;
      first [reflexivity | discriminate H].
  - unfold index_alignment_of.
    destruct (RegimeResult.index_aligned rr); split; intros H;
      first [reflexivity | discriminate H].
  - generalize (ProbabilityComponents.trend_score (probability_of d stock_data index_data)).
    intros t. unfold trend_strength_of.
    destruct (Qle_bool 75 t) eqn:E75; [|destruct (Qle_bool 50 t) eqn:E50].
    + apply Qle_bool_iff in E75.
      assert (H50 : (50 <= t)%Q) by (eapply Qle_trans; [|exact E75]; discriminate).
      split; [|split].
      * split; [intros _; exact E75|reflexivity].
      * split; [discriminate|]. intros [_ Hlt]. exfalso. exact (Qlt_not_le _ _ Hlt E75).
      * split; [discriminate|]. intros Hlt. exfalso. exact (Qlt_not_le _ _ Hlt H50).
    + apply Qle_bool_false in E75. apply Qle_bool_iff in E50.
      split; [|split].
      * split; [discriminate|]. intros Hle. exfalso. exact (Qlt_not_le _ _ E75 Hle).
      * split; [intros _; split; assumption|reflexivity].
      * split; [discriminate|]. intros Hlt. exfalso. exact (Qlt_not_le _ _ Hlt E50).
    + apply Qle_bool_false in E75, E50.
      split; [|split].
      * split; [discriminate|]. intros Hle. exfalso. exact (Qlt_not_le _ _ E75 Hle).
      * split; [discriminate|]. intros [Hle _]. exfalso. exact (Qlt_not_le _ _ E50 Hle).
      * split; [intros _; exact E50|reflexivity].
Qed.

(** *** What the loops collect *)

Lemma process_setups_spec (P : Signal.t -> Prop) setups e symbol sector stock_data index_data rr :
  (forall setup g entry,
     In setup setups ->
     res (_process_setup setup e symbol sector stock_data index_data rr g) = Ok (Some entry) ->
     P entry) ->
  forall acc g out,
    res (process_setups setups e symbol sector stock_data index_data rr acc g) = Ok out ->
    exists new, out = acc ++ new /\ Forall P new /\ length new <= length setups.
Proof.
  induction setups as [|setup rest IH]; intros HP acc g out; cbn [process_setups].
  - cbn. intros [= <-]. exists []. rewrite app_nil_r.
    split; [reflexivity|]. split; [constructor|]. cbn. lia.
  - unfold bind at 1.
    destruct (_process_setup setup e symbol sector stock_data index_data rr g)
      as [[signal|exn] g1 l1] eqn:E; [|cbn; discriminate].
    rewrite res_after_log. intros Hres.
    apply IH in Hres as (new & -> & HF & Hlen).
    2:{ intros s0 g0 entry Hin. apply HP. now right. }
    destruct signal as [entry|].
    + exists (entry :: new). rewrite <- app_assoc. cbn [app length].
      split; [reflexivity|]. split; [|lia]. constructor; [|exact HF].
      apply (HP setup g entry); [now left|]. now rewrite E.
    + exists new. cbn [length]. split; [reflexivity|]. split; [exact HF|lia].
Qed.

Lemma process_setup_micro_signal s symbol sector stock_data index_data rr g entry :
  In s (scan_for_setups (engine1 self) stock_data) ->
  res (_process_setup (Micro s) MICRO symbol sector stock_data index_data rr g)
    = Ok (Some entry) ->
  micro_signal symbol sector stock_data entry.
Proof.
  intros Hin Hres.
  apply process_setup_approved in Hres
    as (d & risk_pct & price & Hd & Hm & Hprice & Hdetails & Hrisk & Hsignal).
  cbn [setup_details] in Hd.
  destruct (TradeSetup.targets s !! "1.0R") as [target|] eqn:Ht; [|discriminate].
  injection Hd as <-. exists s, target.
  rewrite Hsignal, Hdetails, Hrisk.
  cbn [assemble_signal TradeSignal.engine_type TradeSignal.symbol TradeSignal.sector
       TradeSignal.trade_type TradeSignal.setup_type TradeSignal.entry TradeSignal.stoploss
       TradeSignal.target_1 TradeSignal.runner_mode TradeSignal.trailing_method
       TradeSignal.expected_hold TradeSignal.risk_per_trade TradeSignal.ai_probability
       TradeSignal.current_price d_direction d_entry d_stop d_target d_setup_name
       d_expected_hold d_runner_mode d_trailing_method].
  repeat split; try reflexivity; assumption.
Qed.

Lemma process_setup_runner_signal s symbol sector stock_data index_data rr g entry :
  In s (scan_for_setups (engine2 self) stock_data) ->
  res (_process_setup (BigRunner s) BIG_RUNNER symbol sector stock_data index_data rr g)
    = Ok (Some entry) ->
  runner_signal symbol sector stock_data entry.
Proof.
  intros Hin Hres.
  apply process_setup_approved in Hres
    as (d & risk_pct & price & Hd & Hm & Hprice & Hdetails & Hrisk & Hsignal).
  cbn [setup_details] in Hd. injection Hd as <-. exists s.
  rewrite Hsignal, Hdetails, Hrisk.
  cbn [assemble_signal TradeSignal.engine_type TradeSignal.symbol TradeSignal.sector
       TradeSignal.trade_type TradeSignal.setup_type TradeSignal.entry TradeSignal.stoploss
       TradeSignal.target_1 TradeSignal.runner_mode TradeSignal.trailing_method
       TradeSignal.expected_hold TradeSignal.risk_per_trade TradeSignal.ai_probability
       TradeSignal.current_price d_direction d_entry d_stop d_target d_setup_name
       d_expected_hold d_runner_mode d_trailing_method].
  repeat split; try reflexivity; assumption.
Qed.

(** A returning run of steps 4 and 5: the dict it returns and the two groups
    of signals in it. *)
Lemma scan_and_collect_signals symbol sector stock_data index_data rr er vix g result :
  res (scan_and_collect symbol sector stock_data index_data rr er vix g) = Ok result ->
  exists micro runner,
    result = success_result symbol rr er (micro ++ runner) vix /\
    Forall (micro_signal symbol (sector_or_unknown sector) stock_data) micro /\
    Forall (runner_signal symbol (sector_or_unknown sector) stock_data) runner /\
    length micro <=
      (if TwoEngineConfig.enable_engine1 (config self) && RegimeResult.eligible_for_long rr
       then length (scan_for_setups (engine1 self) stock_data) else 0) /\
    length runner <=
      (if TwoEngineConfig.enable_engine2 (config self) && RegimeResult.eligible_for_long rr
       then length (scan_for_setups (engine2 self) stock_data) else 0).
Proof.
  assert (H1 : forall acc g0 out,
             res (process_setups (map Micro (scan_for_setups (engine1 self) stock_data)) MICRO
                    symbol (sector_or_unknown sector) stock_data index_data rr acc g0) = Ok out ->
             exists new, out = acc ++ new /\
               Forall (micro_signal symbol (sector_or_unknown sector) stock_data) new /\
               length new <= length (scan_for_setups (engine1 self) stock_data)).
  { intros acc g0 out Hres.
    eapply process_setups_spec in Hres as (new & -> & HF & Hlen).
    - exists new. rewrite length_map in Hlen. eauto.
    - intros setup g' entry Hin Hentry. apply in_map_iff in Hin as (s & <- & Hs).
      eapply process_setup_micro_signal; eauto. }
  assert (H2 : forall acc g0 out,
             res (process_setups (map BigRunner (scan_for_setups (engine2 self) stock_data))
                    BIG_RUNNER symbol (sector_or_unknown sector) stock_data index_data rr
                    acc g0) = Ok out ->
             exists new, out = acc ++ new /\
               Forall (runner_signal symbol (sector_or_unknown sector) stock_data) new /\
               length new <= length (scan_for_setups (engine2 self) stock_data)).
  { intros acc g0 out Hres.
    eapply process_setups_spec in Hres as (new & -> & HF & Hlen).
    - exists new. rewrite length_map in Hlen. eauto.
    - intros setup g' entry Hin Hentry. apply in_map_iff in Hin as (s & <- & Hs).
      eapply process_setup_runner_signal; eauto. }
  unfold scan_and_collect, bind.
  destruct (TwoEngineConfig.enable_engine1 (config self) && RegimeResult.eligible_for_long rr);
    destruct (TwoEngineConfig.enable_engine2 (config self) && RegimeResult.eligible_for_long rr);
    cbn [call ret after_log app res].
  - pose proof (H1 [] g) as Hm.
    destruct (process_setups (map Micro _) MICRO _ _ _ _ _ _ g) as [[micro|exn] g1 l1];
      cbn [after_log app res] in *; [|discriminate].
    destruct (Hm micro eq_refl) as (new1 & Hnew1 & HF1 & Hlen1). cbn [app] in Hnew1. subst new1.
    pose proof (H2 micro g1) as Hr.
    destruct (process_setups (map BigRunner _) BIG_RUNNER _ _ _ _ _ _ g1) as [[all|exn] g2 l2];
      cbn [after_log app res] in *; [|discriminate].
    destruct (Hr all eq_refl) as (runner & -> & HF2 & Hlen2).
    intros [= <-]. exists micro, runner.
    split; [reflexivity|]. split; [assumption|]. split; [assumption|]. split; assumption.
  - pose proof (H1 [] g) as Hm.
    destruct (process_setups (map Micro _) MICRO _ _ _ _ _ _ g) as [[micro|exn] g1 l1];
      cbn [after_log app res] in *; [|discriminate].
    destruct (Hm micro eq_refl) as (new1 & Hnew1 & HF1 & Hlen1). cbn [app] in Hnew1. subst new1.
    intros [= <-]. exists micro, []. rewrite app_nil_r.
    split; [reflexivity|]. split; [assumption|]. split; [constructor|].
    split; [assumption|cbn; lia].
  - pose proof (H2 [] g) as Hr.
    destruct (process_setups (map BigRunner _) BIG_RUNNER _ _ _ _ _ _ g) as [[all|exn] g2 l2];
      cbn [after_log app res] in *; [|discriminate].
    destruct (Hr all eq_refl) as (runner & Hall & HF2 & Hlen2). cbn [app] in Hall. subst all.
    intros [= <-]. exists [], runner.
    split; [reflexivity|]. split; [constructor|]. split; [assumption|].
    split; [cbn; lia|assumption].
  - intros [= <-]. exists [], [].
    split; [reflexivity|]. split; [constructor|]. split; [constructor|].
    split; cbn; lia.
Qed.

(** *** [analyze_stock], path by path *)

Lemma analyze_stock_no_data symbol sector index g :
  fetch_stock_data (data_fetcher self) symbol = None ->
  analyze_stock symbol sector index g =
    {| res := Ok {[ "error" := VStr "Failed to fetch stock data"; "symbol" := VStr symbol ]};
       gov_after := g;
       log := [EvFetchStockData symbol; EvFetchIndexData index; EvGetCurrentVix] |}.
Proof.
  intros Hdata. unfold analyze_stock. cbn [bind call ret after_log app].
  rewrite Hdata. reflexivity.
Qed.

Lemma analyze_stock_no_trade symbol sector index g stock_data :
  fetch_stock_data (data_fetcher self) symbol = Some stock_data ->
  RegimeResult.eligible_for_long (regime_of stock_data index)
    || RegimeResult.eligible_for_short (regime_of stock_data index) = false ->
  analyze_stock symbol sector index g =
    {| res := Ok {[ "symbol" := VStr symbol;
                    "status" := VStr "NO_TRADE";
                    "reason" := VStr "Market regime not favorable";
                    "regime" := VStr (value (RegimeResult.direction
                                               (regime_of stock_data index))) ]};
       gov_after := update_vix (risk_governor self) (get_current_vix (data_fetcher self)) g;
       log := [EvFetchStockData symbol; EvFetchIndexData index; EvGetCurrentVix;
               EvUpdateVix (get_current_vix (data_fetcher self)); EvAnalyzeRegime] |}.
Proof.
  intros Hdata Hgate. unfold regime_of in *.
  unfold analyze_stock. cbn [bind call ret gov_call after_log app fst snd].
  rewrite Hdata. cbn [bind call ret gov_call after_log app fst snd].
  rewrite Hgate. reflexivity.
Qed.

Lemma analyze_stock_not_eligible symbol sector index g stock_data :
  fetch_stock_data (data_fetcher self) symbol = Some stock_data ->
  RegimeResult.eligible_for_long (regime_of stock_data index)
    || RegimeResult.eligible_for_short (regime_of stock_data index) = true ->
  EligibilityResult.is_eligible (eligibility_of symbol stock_data index sector) = false ->
  analyze_stock symbol sector index g =
    {| res := Ok {[ "symbol" := VStr symbol;
                    "status" := VStr "NOT_ELIGIBLE";
                    "reason" := VStrList (EligibilityResult.warnings
                                            (eligibility_of symbol stock_data index sector));
                    "regime" := VStr (value (RegimeResult.direction
                                               (regime_of stock_data index))) ]};
       gov_after := update_vix (risk_governor self) (get_current_vix (data_fetcher self)) g;
       log := [EvFetchStockData symbol; EvFetchIndexData index; EvGetCurrentVix;
               EvUpdateVix (get_current_vix (data_fetcher self)); EvAnalyzeRegime;
               EvValidateStock symbol] |}.
Proof.
  intros Hdata Hgate Helig. unfold regime_of, eligibility_of in *.
  unfold analyze_stock. cbn [bind call ret gov_call after_log app fst snd].
  rewrite Hdata. cbn [bind call ret gov_call after_log app fst snd].
  rewrite Hgate. cbn [negb bind call ret after_log app].
  rewrite Helig. reflexivity.
Qed.

Lemma get_signals_success symbol rr er signals vix :
  get_signals (success_result symbol rr er signals vix) = signals.
Proof. reflexivity. Qed.

(** The signals of any returned dict, read against the scanned setups. *)
Lemma analyze_stock_signals symbol sector index g stock_data result :
  fetch_stock_data (data_fetcher self) symbol = Some stock_data ->
  res (analyze_stock symbol sector index g) = Ok result ->
  exists micro runner,
    get_signals result = micro ++ runner /\
    Forall (micro_signal symbol (sector_or_unknown sector) stock_data) micro /\
    Forall (runner_signal symbol (sector_or_unknown sector) stock_data) runner /\
    length micro <=
      (if TwoEngineConfig.enable_engine1 (config self)
          && RegimeResult.eligible_for_long (regime_of stock_data index)
       then length (scan_for_setups (engine1 self) stock_data) else 0) /\
    length runner <=
      (if TwoEngineConfig.enable_engine2 (config self)
          && RegimeResult.eligible_for_long (regime_of stock_data index)
       then length (scan_for_setups (engine2 self) stock_data) else 0).
Proof.
  intros Hdata.
  assert (Hnone : forall r : ResultDict,
             get_signals r = [] ->
             exists micro runner,
               get_signals r = micro ++ runner /\
               Forall (micro_signal symbol (sector_or_unknown sector) stock_data) micro /\
               Forall (runner_signal symbol (sector_or_unknown sector) stock_data) runner /\
               length micro <=
                 (if TwoEngineConfig.enable_engine1 (config self)
                     && RegimeResult.eligible_for_long (regime_of stock_data index)
                  then length (scan_for_setups (engine1 self) stock_data) else 0) /\
               length runner <=
                 (if TwoEngineConfig.enable_engine2 (config self)
                     && RegimeResult.eligible_for_long (regime_of stock_data index)
                  then length (scan_for_setups (engine2 self) stock_data) else 0)).
  { intros r Hr. exists [], []. rewrite Hr.
    split; [reflexivity|]. split; [constructor|]. split; [constructor|].
    split; cbn [length]; lia. }
  destruct (RegimeResult.eligible_for_long (regime_of stock_data index)
            || RegimeResult.eligible_for_short (regime_of stock_data index)) eqn:Hgate.
  - destruct (EligibilityResult.is_eligible (eligibility_of symbol stock_data index sector))
      eqn:Helig.
    + rewrite (analyze_stock_gates_passed _ _ _ _ _ Hdata Hgate Helig), res_after_log.
      intros Hres. apply scan_and_collect_signals in Hres
        as (micro & runner & -> & HF1 & HF2 & Hl1 & Hl2).
      exists micro, runner. rewrite get_signals_success.
      split; [reflexivity|]. split; [assumption|]. split; [assumption|]. split; assumption.
    + rewrite (analyze_stock_not_eligible _ _ _ _ _ Hdata Hgate Helig). cbn [res].
      intros [= <-]. apply Hnone. reflexivity.
  - rewrite (analyze_stock_no_trade _ _ _ _ _ Hdata Hgate). cbn [res].
    intros [= <-]. apply Hnone. reflexivity.
Qed.

(** X5.  Every signal in a dict [analyze_stock] returns is built from a setup
    the matching scanner found on the fetched frame: the Engine 1 signals
    come first and the Engine 2 signals after them, each carries the
    analysed symbol, the sector given (or ["UNKNOWN"]), its setup's direction,
    entry, stop and target, its engine's label and fixed texts, a probability
    that met its engine's threshold and the frame's last close; and there are
    at most as many signals as the two scanners found setups. *)
Theorem signals_are_built_from_scanned_setups
    (symbol : string) (sector : option string) (index : string) (g : Gov)
    (stock_data : DataFrame) (result : ResultDict) :
  fetch_stock_data (data_fetcher self) symbol = Some stock_data ->
  res (analyze_stock symbol sector index g) = Ok result ->
  (exists micro runner,
      get_signals result = micro ++ runner /\
      Forall (micro_signal symbol (sector_or_unknown sector) stock_data) micro /\
      Forall (runner_signal symbol (sector_or_unknown sector) stock_data) runner) /\
  length (get_signals result) <=
    length (scan_for_setups (engine1 self) stock_data) +
    length (scan_for_setups (engine2 self) stock_data).
Proof.
  intros Hdata Hres.
  destruct (analyze_stock_signals _ _ _ _ _ _ Hdata Hres)
    as (micro & runner & Hsplit & Hmicro & Hrunner & Hlen1 & Hlen2).
  split.
  - exists micro, runner. split; [exact Hsplit|]. split; assumption.
  - rewrite Hsplit, length_app.
    destruct (TwoEngineConfig.enable_engine1 (config self)
              && RegimeResult.eligible_for_long (regime_of stock_data index));
      destruct (TwoEngineConfig.enable_engine2 (config self)
                && RegimeResult.eligible_for_long (regime_of stock_data index)); lia.
Qed.

(** X6.  The dict [analyze_stock] returns always has the analysed symbol under
    ['symbol'].  Without stock data it has ['error'] and no ['status']; with
    stock data it has no ['error'], the regime direction under ['regime'] and
    a ['status'] that is ['NO_TRADE'] when the regime gate fails,
    ['NOT_ELIGIBLE'] when the eligibility check fails, and ['SUCCESS']
    otherwise. *)
Theorem returned_dict_shapes
    (symbol : string) (sector : option string) (index : string) (g : Gov)
    (result : ResultDict) :
  res (analyze_stock symbol sector index g) = Ok result ->
  result !! "symbol" = Some (VStr symbol) /\
  match fetch_stock_data (data_fetcher self) symbol with
  | None =>
      result !! "error" = Some (VStr "Failed to fetch stock data") /\
      result !! "status" = None
  | Some stock_data =>
      result !! "error" = None /\
      result !! "regime" =
        Some (VStr (value (RegimeResult.direction (regime_of stock_data index)))) /\
      result !! "status" =
        Some (VStr
                (if negb (RegimeResult.eligible_for_long (regime_of stock_data index)
                          || RegimeResult.eligible_for_short (regime_of stock_data index))
                 then "NO_TRADE"
                 else if negb (EligibilityResult.is_eligible
                                 (eligibility_of symbol stock_data index sector))
                 then "NOT_ELIGIBLE"
                 else "SUCCESS"))
  end.
Proof.
  destruct (fetch_stock_data (data_fetcher self) symbol) as [stock_data|] eqn:Hdata.
  - destruct (RegimeResult.eligible_for_long (regime_of stock_data index)
              || RegimeResult.eligible_for_short (regime_of stock_data index)) eqn:Hgate.
    + destruct (EligibilityResult.is_eligible (eligibility_of symbol stock_data index sector))
        eqn:Helig.
      * rewrite (analyze_stock_gates_passed _ _ _ _ _ Hdata Hgate Helig), res_after_log.
        intros Hres. apply scan_and_collect_signals in Hres as (micro & runner & -> & _).
        cbn [negb]. repeat split; vm_compute; reflexivity.
      * rewrite (analyze_stock_not_eligible _ _ _ _ _ Hdata Hgate Helig). cbn [res negb].
        intros [= <-]. repeat split; vm_compute; reflexivity.
    + rewrite (analyze_stock_no_trade _ _ _ _ _ Hdata Hgate). cbn [res negb].
      intros [= <-]. repeat split; vm_compute; reflexivity.
  - rewrite (analyze_stock_no_data _ _ _ _ Hdata). cbn [res].
    intros [= <-]. repeat split; vm_compute; reflexivity.
Qed.

(** *** Exceptions *)

(** The five ways through [_process_setup]: approved, no last close, refused
    by the governor, below the threshold, no setup details. *)
Ltac process_setup_paths :=
  unfold _process_setup;
  destruct (setup_details _ _) as [?d|?exn] eqn:?Hdetails;
  cbn [lift bind ret raise call after_log app];
  [ destruct (meets_threshold _ _) eqn:?Hthreshold;
    cbn [negb bind gov_call ret call after_log app fst snd];
    [ destruct (RiskCheckResult.allowed _) eqn:?Hallowed;
      cbn [negb bind gov_call ret call after_log app fst snd];
      [ destruct (iloc_last _ "Close") as [?price|?exn] eqn:?Hclose;
        cbn [lift bind raise gov_call ret call after_log app fst snd]
      | ]
    | ]
  | ].

Lemma iloc_last_raises (frame : DataFrame) (column : string) (exn : Exn) :
  iloc_last frame column = Raise exn -> exn = KeyError column \/ exn = IndexError.
Proof.
  unfold iloc_last. destruct (frame !! column) as [series|].
  - destruct (List.rev series); [|discriminate]. intros [= <-]. now right.
  - intros [= <-]. now left.
Qed.

Lemma process_setup_raise setup e symbol sector stock_data index_data rr g exn :
  res (_process_setup setup e symbol sector stock_data index_data rr g) = Raise exn ->
  setup_details setup e = Raise exn \/ iloc_last stock_data "Close" = Raise exn.
Proof.
  process_setup_paths; cbn [res]; intros H; try discriminate H.
  - right. now injection H as <-.
  - left. now injection H as <-.
Qed.

Lemma process_setups_raise setups e symbol sector stock_data index_data rr acc g exn :
  res (process_setups setups e symbol sector stock_data index_data rr acc g) = Raise exn ->
  (exists setup, In setup setups /\ setup_details setup e = Raise exn) \/
  iloc_last stock_data "Close" = Raise exn.
Proof.
  revert acc g. induction setups as [|setup rest IH]; intros acc g; cbn [process_setups].
  - cbn. discriminate.
  - unfold bind at 1.
    destruct (_process_setup setup e symbol sector stock_data index_data rr g)
      as [[signal|exn'] g1 l1] eqn:E.
    + rewrite res_after_log. intros H. apply IH in H as [(s & Hin & Hs)|H]; [left|now right].
      exists s. split; [now right|assumption].
    + cbn [res]. intros [= ->].
      assert (Hr : res (_process_setup setup e symbol sector stock_data index_data rr g)
                   = Raise exn) by now rewrite E.
      apply process_setup_raise in Hr as [Hr|Hr]; [left|now right].
      exists setup. split; [now left|assumption].
Qed.

Lemma scan_and_collect_raise symbol sector stock_data index_data rr er vix g exn :
  res (scan_and_collect symbol sector stock_data index_data rr er vix g) = Raise exn ->
  RegimeResult.eligible_for_long rr = true /\
  ((exn = KeyError "1.0R" /\
    TwoEngineConfig.enable_engine1 (config self) = true /\
    exists s, In s (scan_for_setups (engine1 self) stock_data) /\
              TradeSetup.targets s !! "1.0R" = None) \/
   iloc_last stock_data "Close" = Raise exn).
Proof.
  assert (H1 : forall acc g0,
             res (process_setups (map Micro (scan_for_setups (engine1 self) stock_data)) MICRO
                    symbol (sector_or_unknown sector) stock_data index_data rr acc g0)
             = Raise exn ->
             (exn = KeyError "1.0R" /\
              exists s, In s (scan_for_setups (engine1 self) stock_data) /\
                        TradeSetup.targets s !! "1.0R" = None) \/
             iloc_last stock_data "Close" = Raise exn).
  { intros acc g0 H. apply process_setups_raise in H as [(setup & Hin & Hs)|H]; [left|now right].
    apply in_map_iff in Hin as (s & <- & Hin). cbn [setup_details] in Hs.
    destruct (TradeSetup.targets s !! "1.0R") eqn:Ht; [discriminate|].
    injection Hs as <-. split; [reflexivity|]. now exists s. }
  assert (H2 : forall acc g0,
             res (process_setups (map BigRunner (scan_for_setups (engine2 self) stock_data))
                    BIG_RUNNER symbol (sector_or_unknown sector) stock_data index_data rr
                    acc g0) = Raise exn ->
             iloc_last stock_data "Close" = Raise exn).
  { intros acc g0 H. apply process_setups_raise in H as [(setup & Hin & Hs)|H]; [|assumption].
    apply in_map_iff in Hin as (s & <- & Hin). cbn [setup_details] in Hs. discriminate. }
  unfold scan_and_collect, bind.
  destruct (TwoEngineConfig.enable_engine1 (config self)) eqn:He1;
    destruct (TwoEngineConfig.enable_engine2 (config self)) eqn:He2;
    destruct (RegimeResult.eligible_for_long rr) eqn:Hlong;
    cbn [andb call ret after_log app res]; try discriminate.
  - pose proof (H1 [] g) as Hm.
    destruct (process_setups (map Micro _) MICRO _ _ _ _ _ _ g) as [[micro|exn'] g1 l1];
      cbn [after_log app res] in *.
    + pose proof (H2 micro g1) as Hr.
      destruct (process_setups (map BigRunner _) BIG_RUNNER _ _ _ _ _ _ g1)
        as [[all|exn'] g2 l2]; cbn [after_log app res] in *; [discriminate|].
      intros [= ->]. split; [reflexivity|]. right. now apply Hr.
    + intros [= ->]. split; [reflexivity|].
      destruct (Hm eq_refl) as [[-> Hs]|Hc]; [left|now right].
      now repeat split.
  - pose proof (H1 [] g) as Hm.
    destruct (process_setups (map Micro _) MICRO _ _ _ _ _ _ g) as [[micro|exn'] g1 l1];
      cbn [after_log app res] in *; [discriminate|].
    intros [= ->]. split; [reflexivity|].
    destruct (Hm eq_refl) as [[-> Hs]|Hc]; [left|now right].
    now repeat split.
  - pose proof (H2 [] g) as Hr.
    destruct (process_setups (map BigRunner _) BIG_RUNNER _ _ _ _ _ _ g)
      as [[all|exn'] g2 l2]; cbn [after_log app res] in *; [discriminate|].
    intros [= ->]. split; [reflexivity|]. right. now apply Hr.
Qed.

Lemma analyze_stock_raise symbol sector index g exn :
  res (analyze_stock symbol sector index g) = Raise exn ->
  exists stock_data,
    fetch_stock_data (data_fetcher self) symbol = Some stock_data /\
    RegimeResult.eligible_for_long (regime_of stock_data index) = true /\
    EligibilityResult.is_eligible (eligibility_of symbol stock_data index sector) = true /\
    ((exn = KeyError "1.0R" /\
      TwoEngineConfig.enable_engine1 (config self) = true /\
      exists s, In s (scan_for_setups (engine1 self) stock_data) /\
                TradeSetup.targets s !! "1.0R" = None) \/
     (iloc_last stock_data "Close" = Raise exn /\
      (exn = KeyError "Close" \/ exn = IndexError))).
Proof.
  destruct (fetch_stock_data (data_fetcher self) symbol) as [stock_data|] eqn:Hdata.
  2:{ rewrite (analyze_stock_no_data _ _ _ _ Hdata). discriminate. }
  destruct (RegimeResult.eligible_for_long (regime_of stock_data index)
            || RegimeResult.eligible_for_short (regime_of stock_data index)) eqn:Hgate.
  2:{ rewrite (analyze_stock_no_trade _ _ _ _ _ Hdata Hgate). discriminate. }
  destruct (EligibilityResult.is_eligible (eligibility_of symbol stock_data index sector))
    eqn:Helig.
  2:{ rewrite (analyze_stock_not_eligible _ _ _ _ _ Hdata Hgate Helig). discriminate. }
  rewrite (analyze_stock_gates_passed _ _ _ _ _ Hdata Hgate Helig), res_after_log.
  intros H. apply scan_and_collect_raise in H as [Hlong Hcases].
  exists stock_data. split; [reflexivity|]. split; [assumption|]. split; [assumption|].
  destruct Hcases as [Hkey|Hclose]; [now left|right].
  split; [assumption|]. now apply iloc_last_raises in Hclose.
Qed.

(** X7.  [analyze_stock] raises only after both gates have passed for a
    long-eligible regime, and only [KeyError('1.0R')], when a scanned Engine 1
    setup has no ['1.0R'] target, or the [KeyError]/[IndexError] of reading the
    last close of a frame without a ['Close'] column or with an empty one; it
    never raises [AttributeError].  So it returns a dict whenever the fetched
    frame has a last close and every scanned Engine 1 setup has a ['1.0R']
    target. *)
Theorem analyze_stock_exceptions
    (symbol : string) (sector : option string) (index : string) (g : Gov) :
  (forall exn,
     res (analyze_stock symbol sector index g) = Raise exn ->
     (forall attr, exn <> AttributeError attr) /\
     exists stock_data,
       fetch_stock_data (data_fetcher self) symbol = Some stock_data /\
       RegimeResult.eligible_for_long (regime_of stock_data index) = true /\
       EligibilityResult.is_eligible (eligibility_of symbol stock_data index sector) = true /\
       ((exn = KeyError "1.0R" /\
         TwoEngineConfig.enable_engine1 (config self) = true /\
         exists s, In s (scan_for_setups (engine1 self) stock_data) /\
                   TradeSetup.targets s !! "1.0R" = None) \/
        (iloc_last stock_data "Close" = Raise exn /\
         (exn = KeyError "Close" \/ exn = IndexError)))) /\
  ((forall stock_data,
      fetch_stock_data (data_fetcher self) symbol = Some stock_data ->
      (exists price, iloc_last stock_data "Close" = Ok price) /\
      (forall s, In s (scan_for_setups (engine1 self) stock_data) ->
                 TradeSetup.targets s !! "1.0R" <> None)) ->
   exists result, res (analyze_stock symbol sector index g) = Ok result).
Proof.
  split.
  - intros exn H. apply analyze_stock_raise in H as (sd & Hdata & Hlong & Helig & Hcases).
    split.
    + intros attr ->. destruct Hcases as [[H _]|[_ [H|H]]]; discriminate H.
    + exists sd. repeat split; assumption.
  - intros Hpre. destruct (res (analyze_stock symbol sector index g)) as [result|exn] eqn:E.
    + now exists result.
    + exfalso. apply analyze_stock_raise in E as (sd & Hdata & _ & _ & Hcases).
      destruct (Hpre sd Hdata) as [[price Hprice] Htargets].
      destruct Hcases as [(_ & _ & s & Hin & Hnone)|[Hclose _]].
      * exact (Htargets s Hin Hnone).
      * rewrite Hprice in Hclose. discriminate.
Qed.

(** *** Disabled engines *)

Lemma forallb_negb_existsb (kind : Event -> bool) (l : list Event) :
  forallb (fun ev => negb (kind ev)) l = true -> existsb kind l = false.
Proof.
  induction l as [|ev l IH]; cbn; [reflexivity|].
  intros [Hev Hl]%andb_prop. apply negb_true_iff in Hev. rewrite Hev. now apply IH.
Qed.

Lemma engine1_disabled_log symbol sector index :
  TwoEngineConfig.enable_engine1 (config self) = false ->
  log_all (fun ev => negb (is_engine1_scan ev)) (analyze_stock symbol sector index).
Proof.
  intros H. unfold analyze_stock. rewrite H. cbn [andb].
  repeat first
    [ apply process_setups_log_all; intros [] ?; (discriminate || reflexivity)
    | progress walk_log ].
Qed.

Lemma engine2_disabled_log symbol sector index :
  TwoEngineConfig.enable_engine2 (config self) = false ->
  log_all (fun ev => negb (is_engine2_scan ev)) (analyze_stock symbol sector index).
Proof.
  intros H. unfold analyze_stock. rewrite H. cbn [andb].
  repeat first
    [ apply process_setups_log_all; intros [] ?; (discriminate || reflexivity)
    | progress walk_log ].
Qed.

(** X8.  An engine switched off in the configuration is never scanned,
    whatever the regime and the data, and every signal of a returned dict
    then comes from the other engine. *)
Theorem disabled_engine_is_never_scanned
    (symbol : string) (sector : option string) (index : string) (g : Gov) :
  (TwoEngineConfig.enable_engine1 (config self) = false ->
   existsb is_engine1_scan (log (analyze_stock symbol sector index g)) = false /\
   forall stock_data result,
     fetch_stock_data (data_fetcher self) symbol = Some stock_data ->
     res (analyze_stock symbol sector index g) = Ok result ->
     Forall (runner_signal symbol (sector_or_unknown sector) stock_data)
       (get_signals result)) /\
  (TwoEngineConfig.enable_engine2 (config self) = false ->
   existsb is_engine2_scan (log (analyze_stock symbol sector index g)) = false /\
   forall stock_data result,
     fetch_stock_data (data_fetcher self) symbol = Some stock_data ->
     res (analyze_stock symbol sector index g) = Ok result ->
     Forall (micro_signal symbol (sector_or_unknown sector) stock_data)
       (get_signals result)).
Proof.
  split; intros Hoff; (split; [|intros stock_data result Hdata Hres]).
  - apply forallb_negb_existsb. now apply engine1_disabled_log.
  - destruct (analyze_stock_signals _ _ _ _ _ _ Hdata Hres)
      as (micro & runner & -> & _ & Hrunner & Hlen & _).
    rewrite Hoff in Hlen. cbn [andb] in Hlen.
    destruct micro; [exact Hrunner|cbn in Hlen; lia].
  - apply forallb_negb_existsb. now apply engine2_disabled_log.
  - destruct (analyze_stock_signals _ _ _ _ _ _ Hdata Hres)
      as (micro & runner & -> & Hmicro & _ & _ & Hlen).
    rewrite Hoff in Hlen. cbn [andb] in Hlen.
    destruct runner; [now rewrite app_nil_r|cbn in Hlen; lia].
Qed.

(** *** Exceptions in the loops *)

Lemma process_setups_first_raises setup rest e symbol sector stock_data index_data rr acc g exn :
  setup_details setup e = Raise exn ->
  process_setups (setup :: rest) e symbol sector stock_data index_data rr acc g =
    {| res := Raise exn; gov_after := g; log := [] |}.
Proof.
  intros H. cbn [process_setups]. unfold bind.
  now rewrite (process_setup_raises _ _ _ _ _ _ _ _ _ H).
Qed.

(** X10.  When both gates have passed for a long-eligible regime with Engine 1
    enabled and the first setup Engine 1 finds has no ['1.0R'] target,
    [analyze_stock] raises [KeyError('1.0R')] right after the Engine 1 scan:
    nothing is scored, Engine 2 is not scanned, and the governor has only
    seen [update_vix]. *)
Theorem missing_target_aborts_analysis
    (symbol : string) (sector : option string) (index : string) (g : Gov)
    (stock_data : DataFrame) (s : TradeSetup.t) (others : list TradeSetup.t) :
  fetch_stock_data (data_fetcher self) symbol = Some stock_data ->
  RegimeResult.eligible_for_long (regime_of stock_data index) = true ->
  EligibilityResult.is_eligible (eligibility_of symbol stock_data index sector) = true ->
  TwoEngineConfig.enable_engine1 (config self) = true ->
  scan_for_setups (engine1 self) stock_data = s :: others ->
  TradeSetup.targets s !! "1.0R" = None ->
  analyze_stock symbol sector index g =
    {| res := Raise (KeyError "1.0R");
       gov_after := update_vix (risk_governor self) (get_current_vix (data_fetcher self)) g;
       log := [EvFetchStockData symbol; EvFetchIndexData index; EvGetCurrentVix;
               EvUpdateVix (get_current_vix (data_fetcher self)); EvAnalyzeRegime;
               EvValidateStock symbol; EvEngine1Scan stock_data] |}.
Proof.
  intros Hdata Hlong Helig He1 Hscan Hnone.
  assert (Hgate : RegimeResult.eligible_for_long (regime_of stock_data index)
                  || RegimeResult.eligible_for_short (regime_of stock_data index) = true)
    by now rewrite Hlong.
  rewrite (analyze_stock_gates_passed _ _ _ _ _ Hdata Hgate Helig).
  unfold scan_and_collect. rewrite He1, Hlong, Hscan. cbn [andb].
  unfold bind at 1 2 3. cbn [call after_log app map].
  rewrite process_setups_first_raises with (exn := KeyError "1.0R").
  - reflexivity.
  - cbn [setup_details]. now rewrite Hnone.
Qed.

(** X11.  A candidate that met its threshold and was admitted, on a frame
    whose last close cannot be read, makes the loop raise that [KeyError] or
    [IndexError] after the governor has gone through admission and sizing:
    the remaining candidates are not processed, the signals collected so far
    are lost, and the governor keeps the state sizing left. *)
Theorem admitted_candidate_without_last_close
    (setup : Setup) (rest : list Setup) (e : EngineType) (symbol sector : string)
    (stock_data : DataFrame) (index_data : option DataFrame) (rr : RegimeResult.t)
    (acc : list Signal.t) (g : Gov) (d : SetupDetails) (exn : Exn) :
  let prob := ProbabilityComponents.final_probability
                (probability_of d stock_data index_data) in
  let admission :=
    can_open_new_trade (risk_governor self) symbol sector (d_direction d) prob e g in
  setup_details setup e = Ok d ->
  meets_threshold prob e = true ->
  RiskCheckResult.allowed (fst admission) = true ->
  iloc_last stock_data "Close" = Raise exn ->
  process_setups (setup :: rest) e symbol sector stock_data index_data rr acc g =
    {| res := Raise exn;
       gov_after :=
         snd (calculate_position_size (risk_governor self) prob (d_entry d) (d_stop d)
                (snd admission));
       log := [EvCalculateProbability (d_setup_name d);
               EvMeetsThreshold prob e;
               EvCanOpenNewTrade symbol sector (d_direction d) prob e;
               EvCalculatePositionSize prob (d_entry d) (d_stop d)] |}.
Proof.
  intros prob admission Hd Hm Ha Hclose. subst prob admission.
  cbn [process_setups]. unfold bind at 1. unfold _process_setup. rewrite Hd.
  cbn [lift bind ret call after_log app]. rewrite Hm.
  cbn [negb bind gov_call after_log app fst snd]. rewrite Ha.
  cbn [negb bind gov_call after_log app fst snd]. rewrite Hclose.
  reflexivity.
Qed.

(** *** Counting calls *)

Lemma calls_app (kind : Event -> bool) (l1 l2 : list Event) :
  calls kind (l1 ++ l2) = calls kind l1 + calls kind l2.
Proof. unfold calls. now rewrite List.filter_app, length_app. Qed.

Lemma process_setup_counts setup e symbol sector stock_data index_data rr g r :
  res (_process_setup setup e symbol sector stock_data index_data rr g) = Ok r ->
  calls is_scoring (log (_process_setup setup e symbol sector stock_data index_data rr g)) = 1 /\
  calls is_sizing (log (_process_setup setup e symbol sector stock_data index_data rr g)) =
    match r with Some _ => 1 | None => 0 end /\
  calls is_format_signal
    (log (_process_setup setup e symbol sector stock_data index_data rr g)) =
    match r with Some _ => 1 | None => 0 end /\
  calls is_admission (log (_process_setup setup e symbol sector stock_data index_data rr g)) <= 1 /\
  match r with Some _ => 1 | None => 0 end <=
    calls is_admission (log (_process_setup setup e symbol sector stock_data index_data rr g)).
Proof.
  process_setup_paths; cbn [res log]; intros H; try discriminate H;
    injection H as <-; cbn; repeat split; lia.
Qed.

Lemma process_setups_counts setups e symbol sector stock_data index_data rr :
  forall acc g out,
    res (process_setups setups e symbol sector stock_data index_data rr acc g) = Ok out ->
    calls is_scoring
      (log (process_setups setups e symbol sector stock_data index_data rr acc g))
      = length setups /\
    length out =
      length acc +
      calls is_sizing
        (log (process_setups setups e symbol sector stock_data index_data rr acc g)) /\
    calls is_format_signal
      (log (process_setups setups e symbol sector stock_data index_data rr acc g)) =
      calls is_sizing
        (log (process_setups setups e symbol sector stock_data index_data rr acc g)) /\
    calls is_sizing
      (log (process_setups setups e symbol sector stock_data index_data rr acc g)) <=
      calls is_admission
        (log (process_setups setups e symbol sector stock_data index_data rr acc g)) /\
    calls is_admission
      (log (process_setups setups e symbol sector stock_data index_data rr acc g)) <=
      length setups.
Proof.
  induction setups as [|setup rest IH]; intros acc g out; cbn [process_setups].
  - cbn. intros [= <-]. repeat split; lia.
  - unfold bind.
    pose proof (process_setup_counts setup e symbol sector stock_data index_data rr g) as Hone.
    destruct (_process_setup setup e symbol sector stock_data index_data rr g)
      as [[signal|exn] g1 l1]; [|cbn; discriminate].
    specialize (Hone signal eq_refl). cbn [log] in Hone.
    destruct Hone as (Hs & Hz & Hf & Ha1 & Ha2).
    rewrite res_after_log, log_after_log, !calls_app. intros Hres.
    apply IH in Hres as (Hs' & Hlen & Hf' & Hz' & Ha').
    rewrite Hs, Hs', Hlen, Hf, Hf', Hz. cbn [length].
    destruct signal; rewrite ?length_app; cbn [length]; repeat split; lia.
Qed.

Lemma get_signals_literal (a b c d e f : PyValue) (l : list Signal.t) :
  get_signals {[ "symbol" := a; "status" := b; "regime" := c; "regime_score" := d;
                 "eligible" := e; "signals" := VSignals l; "vix" := f ]} = l.
Proof. reflexivity. Qed.

Lemma scan_and_collect_counts symbol sector stock_data index_data rr er vix g result :
  res (scan_and_collect symbol sector stock_data index_data rr er vix g) = Ok result ->
  calls is_sizing (log (scan_and_collect symbol sector stock_data index_data rr er vix g))
    = length (get_signals result) /\
  calls is_format_signal
    (log (scan_and_collect symbol sector stock_data index_data rr er vix g))
    = length (get_signals result) /\
  calls is_sizing (log (scan_and_collect symbol sector stock_data index_data rr er vix g)) <=
    calls is_admission
      (log (scan_and_collect symbol sector stock_data index_data rr er vix g)) /\
  calls is_admission (log (scan_and_collect symbol sector stock_data index_data rr er vix g)) <=
    calls is_scoring (log (scan_and_collect symbol sector stock_data index_data rr er vix g)) /\
  calls is_scoring (log (scan_and_collect symbol sector stock_data index_data rr er vix g)) =
    (if TwoEngineConfig.enable_engine1 (config self) && RegimeResult.eligible_for_long rr
     then length (scan_for_setups (engine1 self) stock_data) else 0) +
    (if TwoEngineConfig.enable_engine2 (config self) && RegimeResult.eligible_for_long rr
     then length (scan_for_setups (engine2 self) stock_data) else 0).
Proof.
  unfold scan_and_collect, bind.
  destruct (TwoEngineConfig.enable_engine1 (config self) && RegimeResult.eligible_for_long rr);
    destruct (TwoEngineConfig.enable_engine2 (config self) && RegimeResult.eligible_for_long rr);
    cbn [call ret after_log app res log];
    repeat match goal with
      | |- context [process_setups (map ?c ?l) ?b ?s ?d ?f ?i ?r ?a ?g'] =>
          let H := fresh "Hloop" in
          pose proof (process_setups_counts (map c l) b s d f i r a g') as H;
          destruct (process_setups (map c l) b s d f i r a g') as [[?out|?exn] ?g1 ?l1];
          cbn [call ret after_log app res log] in *;
          [ specialize (H _ eq_refl); rewrite length_map in H;
            destruct H as (? & ? & ? & ? & ?) | discriminate ]
      end;
    intros [= <-];
    rewrite get_signals_literal;
    repeat match goal with
      | |- context [calls ?k (?ev :: ?l)] =>
          change (calls k (ev :: l)) with (calls k l)
      | |- context [calls ?k (?l1 ++ ?l2)] => rewrite (calls_app k l1 l2)
      end;
    cbn [calls List.filter length app] in *; repeat split; lia.
Qed.

(** X9.  In a run of [analyze_stock] that returns, position sizing and signal
    formatting are each called once per signal of the returned dict; sizing
    is never called more often than the admission check, nor the admission
    check more often than the scorer; and once both gates have passed the
    scorer is called once per setup found by each engine that is enabled
    under a long-eligible regime. *)
Theorem calls_match_signals
    (symbol : string) (sector : option string) (index : string) (g : Gov)
    (result : ResultDict) :
  res (analyze_stock symbol sector index g) = Ok result ->
  calls is_sizing (log (analyze_stock symbol sector index g)) = length (get_signals result) /\
  calls is_format_signal (log (analyze_stock symbol sector index g))
    = length (get_signals result) /\
  calls is_sizing (log (analyze_stock symbol sector index g)) <=
    calls is_admission (log (analyze_stock symbol sector index g)) /\
  calls is_admission (log (analyze_stock symbol sector index g)) <=
    calls is_scoring (log (analyze_stock symbol sector index g)) /\
  (forall stock_data,
     fetch_stock_data (data_fetcher self) symbol = Some stock_data ->
     RegimeResult.eligible_for_long (regime_of stock_data index)
       || RegimeResult.eligible_for_short (regime_of stock_data index) = true ->
     EligibilityResult.is_eligible (eligibility_of symbol stock_data index sector) = true ->
     calls is_scoring (log (analyze_stock symbol sector index g)) =
       (if TwoEngineConfig.enable_engine1 (config self)
           && RegimeResult.eligible_for_long (regime_of stock_data index)
        then length (scan_for_setups (engine1 self) stock_data) else 0) +
       (if TwoEngineConfig.enable_engine2 (config self)
           && RegimeResult.eligible_for_long (regime_of stock_data index)
        then length (scan_for_setups (engine2 self) stock_data) else 0)).
Proof.
  destruct (fetch_stock_data (data_fetcher self) symbol) as [stock_data|] eqn:Hdata.
  - destruct (RegimeResult.eligible_for_long (regime_of stock_data index)
              || RegimeResult.eligible_for_short (regime_of stock_data index)) eqn:Hgate.
    + destruct (EligibilityResult.is_eligible (eligibility_of symbol stock_data index sector))
        eqn:Helig.
      * rewrite (analyze_stock_gates_passed _ _ _ _ _ Hdata Hgate Helig).
        rewrite res_after_log, log_after_log, !calls_app.
        intros Hres. apply scan_and_collect_counts in Hres as (H1 & H2 & H3 & H4 & H5).
        change (calls is_sizing [_; _; _; _; _; _]) with 0.
        change (calls is_format_signal [_; _; _; _; _; _]) with 0.
        change (calls is_admission [_; _; _; _; _; _]) with 0.
        change (calls is_scoring [_; _; _; _; _; _]) with 0.
        cbn [Nat.add]. repeat split; try assumption.
        intros sd [= <-] _ _. exact H5.
      * rewrite (analyze_stock_not_eligible _ _ _ _ _ Hdata Hgate Helig). cbn [res log].
        intros [= <-]. repeat split; try reflexivity. intros sd [= <-] ? ?. congruence.
    + rewrite (analyze_stock_no_trade _ _ _ _ _ Hdata Hgate). cbn [res log].
      intros [= <-]. repeat split; try reflexivity. intros sd [= <-] ? ?. congruence.
  - rewrite (analyze_stock_no_data _ _ _ _ Hdata). cbn [res log].
    intros [= <-]. repeat split; try reflexivity. intros sd [=].
Qed.

(** *** scan_multiple_stocks *)

Lemma analyze_stock_result_symbol symbol sector index g result :
  res (analyze_stock symbol sector index g) = Ok result ->
  result !! "symbol" = Some (VStr symbol).
Proof.
  destruct (fetch_stock_data (data_fetcher self) symbol) as [stock_data|] eqn:Hdata.
  - destruct (RegimeResult.eligible_for_long (regime_of stock_data index)
              || RegimeResult.eligible_for_short (regime_of stock_data index)) eqn:Hgate.
    + destruct (EligibilityResult.is_eligible (eligibility_of symbol stock_data index sector))
        eqn:Helig.
      * rewrite (analyze_stock_gates_passed _ _ _ _ _ Hdata Hgate Helig), res_after_log.
        intros Hres. apply scan_and_collect_signals in Hres as (micro & runner & -> & _).
        reflexivity.
      * rewrite (analyze_stock_not_eligible _ _ _ _ _ Hdata Hgate Helig). cbn [res].
        intros [= <-]. vm_compute. reflexivity.
    + rewrite (analyze_stock_no_trade _ _ _ _ _ Hdata Hgate). cbn [res].
      intros [= <-]. vm_compute. reflexivity.
  - rewrite (analyze_stock_no_data _ _ _ _ Hdata). cbn [res].
    intros [= <-]. vm_compute. reflexivity.
Qed.

Lemma analyze_stock_signal_symbols symbol sector index g result :
  res (analyze_stock symbol sector index g) = Ok result ->
  Forall (fun entry =>
            TradeSignal.symbol (Signal.signal entry) = symbol /\
            TradeSignal.sector (Signal.signal entry) = sector_or_unknown sector)
    (get_signals result).
Proof.
  destruct (fetch_stock_data (data_fetcher self) symbol) as [stock_data|] eqn:Hdata.
  - intros Hres.
    destruct (analyze_stock_signals _ _ _ _ _ _ Hdata Hres)
      as (micro & runner & -> & Hmicro & Hrunner & _).
    apply Forall_app. split.
    + eapply Forall_impl; [exact Hmicro|].
      intros entry (s & target & _ & _ & _ & Hsym & Hsec & _). now split.
    + eapply Forall_impl; [exact Hrunner|].
      intros entry (s & _ & _ & Hsym & Hsec & _). now split.
  - rewrite (analyze_stock_no_data _ _ _ _ Hdata). cbn [res].
    intros [= <-]. constructor.
Qed.

Lemma scan_symbols_spec symbols sectors :
  forall results signals g results' signals',
    res (scan_symbols symbols sectors results signals g) = Ok (results', signals') ->
    (exists new,
        signals' = signals ++ new /\
        Forall (fun entry =>
                  In (TradeSignal.symbol (Signal.signal entry)) symbols /\
                  TradeSignal.sector (Signal.signal entry) =
                    sector_or_unknown
                      (Some (default "UNKNOWN"
                               (sectors !! TradeSignal.symbol (Signal.signal entry))))) new) /\
    (forall k, is_Some (results' !! k) <-> is_Some (results !! k) \/ In k symbols) /\
    (forall k r, results' !! k = Some r ->
                 results !! k = Some r \/ r !! "symbol" = Some (VStr k)).
Proof.
  induction symbols as [|symbol rest IH]; intros results signals g results' signals';
    cbn [scan_symbols].
  - cbn. intros [= <- <-]. split; [|split].
    + exists []. rewrite app_nil_r. split; [reflexivity|constructor].
    + intros k. cbn. tauto.
    + intros k r H. now left.
  - unfold bind at 1.
    destruct (analyze_stock symbol (Some (default "UNKNOWN" (sectors !! symbol))) "NIFTY" g)
      as [[result|exn] g1 l1] eqn:E; [|cbn; discriminate].
    assert (Hres : res (analyze_stock symbol (Some (default "UNKNOWN" (sectors !! symbol)))
                          "NIFTY" g) = Ok result) by now rewrite E.
    rewrite res_after_log. intros H.
    apply IH in H as ((new & -> & HF) & Hdom & Hsym).
    split; [|split].
    + exists ((if has_signals_to_collect result then get_signals result else []) ++ new).
      split.
      * destruct (has_signals_to_collect result); [now rewrite app_assoc|reflexivity].
      * apply Forall_app. split.
        -- assert (Hall : Forall
                     (fun entry =>
                        In (TradeSignal.symbol (Signal.signal entry)) (symbol :: rest) /\
                        TradeSignal.sector (Signal.signal entry) =
                          sector_or_unknown
                            (Some (default "UNKNOWN"
                                     (sectors !! TradeSignal.symbol (Signal.signal entry)))))
                     (get_signals result)).
           { eapply Forall_impl; [exact (analyze_stock_signal_symbols _ _ _ _ _ Hres)|].
             intros entry [Hs Hsec]. rewrite Hs. split; [now left|exact Hsec]. }
           destruct (has_signals_to_collect result); [exact Hall|constructor].
        -- eapply Forall_impl; [exact HF|]. intros entry [Hin Hsec]. split; [now right|exact Hsec].
    + intros k. rewrite Hdom, lookup_insert_is_Some'. cbn [In]. tauto.
    + intros k r Hk. apply Hsym in Hk as [Hk|Hk]; [|now right].
      apply lookup_insert_Some in Hk as [[<- <-]|[_ Hk]]; [right|now left].
      exact (analyze_stock_result_symbol _ _ _ _ _ Hres).
Qed.

(** X12.  The dict a returning [scan_multiple_stocks] gives counts every
    listed symbol (a repeated symbol every time it is listed), while
    ['detailed_results'] has one dict per distinct symbol, each carrying its
    own symbol; ['total_signals'] is the length of ['signals'], and every
    collected signal is for one of the listed symbols and carries the sector
    the [sectors] mapping gives for its symbol, ["UNKNOWN"] when it gives
    none or an empty one. *)
Theorem scan_results_belong_to_the_listed_symbols
    (symbols : list string) (sectors : option (gmap string string)) (g : Gov)
    (report : gmap string ScanValue) :
  res (scan_multiple_stocks symbols sectors g) = Ok report ->
  exists signals results,
    report !! "total_stocks_scanned" = Some (SInt (Z.of_nat (length symbols))) /\
    report !! "total_signals" = Some (SInt (Z.of_nat (length signals))) /\
    report !! "signals" = Some (SSignals signals) /\
    report !! "detailed_results" = Some (SResults results) /\
    (forall k, is_Some (results !! k) <-> In k symbols) /\
    (forall k r, results !! k = Some r -> r !! "symbol" = Some (VStr k)) /\
    Forall (fun entry =>
              In (TradeSignal.symbol (Signal.signal entry)) symbols /\
              TradeSignal.sector (Signal.signal entry) =
                sector_or_unknown
                  (Some (default "UNKNOWN"
                           (match sectors with Some d => d | None => ∅ end
                              !! TradeSignal.symbol (Signal.signal entry))))) signals.
Proof.
  unfold scan_multiple_stocks, bind.
  pose proof (scan_symbols_spec symbols (match sectors with Some d => d | None => ∅ end)
                ∅ [] g) as Hspec.
  destruct (scan_symbols symbols _ ∅ [] g) as [[[results signals]|exn] g1 l1];
    cbn [ret after_log app res fst snd] in *; [|discriminate].
  destruct (Hspec results signals eq_refl) as ((new & Hnew & HF) & Hdom & Hsym).
  cbn [app] in Hnew. subst new.
  intros [= <-]. exists signals, results.
  split; [reflexivity|]. split; [reflexivity|]. split; [reflexivity|]. split; [reflexivity|].
  split; [|split; [|exact HF]].
  - intros k. rewrite Hdom. split; [|tauto].
    intros [H|H]; [|exact H]. now apply lookup_empty_is_Some in H.
  - intros k r Hk. apply Hsym in Hk as [Hk|Hk]; [|exact Hk].
    rewrite lookup_empty in Hk. discriminate.
Qed.

Lemma has_signals_to_collect_error (symbol : string) :
  has_signals_to_collect (error_result symbol) = false.
Proof. reflexivity. Qed.

Lemma fold_error_results_other (symbols : list string) (m : gmap string ResultDict) (k : string) :
  ~ In k symbols ->
  fold_left (fun m s => <[s := error_result s]> m) symbols m !! k = m !! k.
Proof.
  revert m. induction symbols as [|s rest IH]; intros m Hk; cbn [fold_left]; [reflexivity|].
  rewrite IH by (intros H; apply Hk; now right).
  apply lookup_insert_ne. intros ->. apply Hk. now left.
Qed.

Lemma fold_error_results_listed (symbols : list string) (m : gmap string ResultDict) (k : string) :
  In k symbols ->
  fold_left (fun m s => <[s := error_result s]> m) symbols m !! k = Some (error_result k).
Proof.
  revert m. induction symbols as [|s rest IH]; intros m Hk; cbn [fold_left]; [destruct Hk|].
  destruct (in_dec string_dec k rest) as [Hin|Hout]; [now apply IH|].
  destruct Hk as [->|Hk]; [|contradiction].
  rewrite fold_error_results_other by assumption. apply lookup_insert_eq.
Qed.

Lemma scan_symbols_no_data symbols sectors :
  (forall s, In s symbols -> fetch_stock_data (data_fetcher self) s = None) ->
  forall results signals g,
    scan_symbols symbols sectors results signals g =
      {| res := Ok (fold_left (fun m s => <[s := error_result s]> m) symbols results, signals);
         gov_after := g;
         log := flat_map
                  (fun s => [EvFetchStockData s; EvFetchIndexData "NIFTY"; EvGetCurrentVix])
                  symbols |}.
Proof.
  induction symbols as [|symbol rest IH]; intros Hnone results signals g;
    cbn [scan_symbols fold_left flat_map]; [reflexivity|].
  unfold bind at 1.
  rewrite (analyze_stock_no_data symbol _ "NIFTY" g (Hnone symbol (or_introl eq_refl))).
  fold (error_result symbol). rewrite has_signals_to_collect_error.
  rewrite IH by (intros s Hs; apply Hnone; now right).
  reflexivity.
Qed.

(** X13.  When the data source has stock data for none of the listed symbols,
    [scan_multiple_stocks] returns without raising: no signal is collected,
    every listed symbol has the ['error'] dict as its detailed result, the
    only calls made are the three fetches per symbol, and the governor is
    left as it was. *)
Theorem scan_without_stock_data
    (symbols : list string) (sectors : option (gmap string string)) (g : Gov) :
  (forall s, In s symbols -> fetch_stock_data (data_fetcher self) s = None) ->
  gov_after (scan_multiple_stocks symbols sectors g) = g /\
  log (scan_multiple_stocks symbols sectors g) =
    flat_map (fun s => [EvFetchStockData s; EvFetchIndexData "NIFTY"; EvGetCurrentVix])
      symbols /\
  existsb is_pipeline_stage (log (scan_multiple_stocks symbols sectors g)) = false /\
  exists results,
    res (scan_multiple_stocks symbols sectors g) =
      Ok {[ "total_stocks_scanned" := SInt (Z.of_nat (length symbols));
            "total_signals" := SInt 0;
            "signals" := SSignals [];
            "detailed_results" := SResults results ]} /\
    forall k, In k symbols -> results !! k = Some (error_result k).
Proof.
  intros Hnone. unfold scan_multiple_stocks, bind.
  rewrite (scan_symbols_no_data symbols _ Hnone). cbn [ret after_log res gov_after log fst snd].
  rewrite app_nil_r. split; [reflexivity|]. split; [reflexivity|]. split.
  - clear. induction symbols as [|s rest IH]; [reflexivity|]. exact IH.
  - eexists. split; [reflexivity|]. intros k Hk. now apply fold_error_results_listed.
Qed.

Lemma replay_governor_calls (l : list Event) (g : Gov) :
  replay l g =
    replay (List.filter (fun ev => is_update_vix ev || is_admission_or_sizing ev) l) g.
Proof.
  revert g. induction l as [|ev l IH]; intros g; [reflexivity|].
  destruct ev; cbn; apply IH.
Qed.

Lemma forallb_negb_calls (kind : Event -> bool) (l : list Event) :
  forallb (fun ev => negb (kind ev)) l = true -> calls kind l = 0.
Proof.
  unfold calls. induction l as [|ev l IH]; cbn; [reflexivity|].
  intros [Hev Hl]%andb_prop. apply negb_true_iff in Hev. rewrite Hev. now apply IH.
Qed.

Lemma analyze_stock_fetch_and_vix_calls symbol sector index g :
  calls is_fetch_stock (log (analyze_stock symbol sector index g)) = 1 /\
  calls is_update_vix (log (analyze_stock symbol sector index g)) =
    (if has_stock_data symbol then 1 else 0).
Proof.
  unfold has_stock_data.
  destruct (fetch_stock_data (data_fetcher self) symbol) as [stock_data|] eqn:Hdata.
  2:{ rewrite (analyze_stock_no_data _ _ _ _ Hdata). split; reflexivity. }
  unfold analyze_stock. cbn [bind call ret gov_call after_log app fst snd]. rewrite Hdata.
  cbn [bind call ret gov_call after_log app fst snd].
  match goal with
  | |- context [after_log [EvAnalyzeRegime] (?m ?g')] => set (rest_of_run := m); set (g1 := g')
  end.
  assert (Hf : log_all (fun ev => negb (is_fetch_stock ev)) rest_of_run).
  { subst rest_of_run.
    repeat first
      [ apply process_setups_log_all; intros [] ?; (discriminate || reflexivity)
      | progress walk_log ]. }
  assert (Hv : log_all (fun ev => negb (is_update_vix ev)) rest_of_run).
  { subst rest_of_run.
    repeat first
      [ apply process_setups_log_all; intros [] ?; (discriminate || reflexivity)
      | progress walk_log ]. }
  specialize (Hf g1). specialize (Hv g1).
  apply forallb_negb_calls in Hf, Hv.
  destruct (rest_of_run g1) as [r g2 l2]. cbn [after_log app log] in *.
  unfold calls in *. cbn [List.filter is_fetch_stock is_update_vix length].
  rewrite Hf, Hv. split; reflexivity.
Qed.

Lemma scan_symbols_faithful symbols sectors results signals :
  log_faithful (scan_symbols symbols sectors results signals).
Proof.
  revert results signals. induction symbols as [|symbol rest IH]; intros results signals;
    cbn [scan_symbols].
  - apply log_faithful_ret.
  - apply log_faithful_bind; [apply analyze_stock_faithful|]. intros result. apply IH.
Qed.

Lemma scan_symbols_calls symbols sectors :
  forall results signals g out,
    res (scan_symbols symbols sectors results signals g) = Ok out ->
    calls is_fetch_stock (log (scan_symbols symbols sectors results signals g))
      = length symbols /\
    calls is_update_vix (log (scan_symbols symbols sectors results signals g))
      = length (List.filter has_stock_data symbols).
Proof.
  induction symbols as [|symbol rest IH]; intros results signals g out;
    cbn [scan_symbols List.filter].
  - intros _. split; reflexivity.
  - unfold bind.
    pose proof (analyze_stock_fetch_and_vix_calls symbol
                  (Some (default "UNKNOWN" (sectors !! symbol))) "NIFTY" g) as [Hf Hv].
    destruct (analyze_stock symbol (Some (default "UNKNOWN" (sectors !! symbol))) "NIFTY" g)
      as [[result|exn] g1 l1]; [|cbn; discriminate].
    cbn [log] in Hf, Hv. rewrite res_after_log, log_after_log, !calls_app. intros Hres.
    apply IH in Hres as [Hf' Hv']. rewrite Hf, Hv, Hf', Hv'.
    destruct (has_stock_data symbol); cbn [length]; split; lia.
Qed.

(** X14.  Over a whole [scan_multiple_stocks] batch the governor's final state
    is its [update_vix], admission and sizing calls replayed in order, nothing
    else; and a batch that returns has fetched stock data once per listed
    symbol and called [update_vix] once per listed symbol the data source has
    data for. *)
Theorem scan_governor_and_fetches
    (symbols : list string) (sectors : option (gmap string string)) (g : Gov) :
  gov_after (scan_multiple_stocks symbols sectors g) =
    replay (List.filter (fun ev => is_update_vix ev || is_admission_or_sizing ev)
              (log (scan_multiple_stocks symbols sectors g))) g /\
  (forall report,
     res (scan_multiple_stocks symbols sectors g) = Ok report ->
     calls is_fetch_stock (log (scan_multiple_stocks symbols sectors g)) = length symbols /\
     calls is_update_vix (log (scan_multiple_stocks symbols sectors g)) =
       length (List.filter has_stock_data symbols)).
Proof.
  split.
  - rewrite <- replay_governor_calls. unfold scan_multiple_stocks.
    apply log_faithful_bind; [apply scan_symbols_faithful|]. intros scanned.
    apply log_faithful_ret.
  - unfold scan_multiple_stocks, bind.
    pose proof (scan_symbols_calls symbols (match sectors with Some d => d | None => ∅ end)
                  ∅ [] g) as Hcalls.
    destruct (scan_symbols symbols _ ∅ [] g) as [[out|exn] g1 l1];
      cbn [ret after_log app res log] in *; [|discriminate].
    intros report _. rewrite app_nil_r. exact (Hcalls out eq_refl).
Qed.

End Orchestrator.

Arguments Build_Outcome {Gov A} _ _ _.
Arguments res {Gov A} _.
Arguments gov_after {Gov A} _.
Arguments log {Gov A} _.

(** *** The concrete orchestrator, run *)

Import Standin.

(** The end-to-end scenarios of the specification: probability 72 gives one
    approved signal labelled ["MICRO-PROFIT"], probability 68 gives none, and
    both results are ['SUCCESS']. *)
Example scenario_probability_72 :
  let o := analyze_stock (orchestrator true false [] 72) "RELIANCE" (Some "ENERGY") "NIFTY"
             fresh_state in
  exists result entry,
    res o = Ok result /\
    result !! "status" = Some (VStr "SUCCESS") /\
    get_signals result = [entry] /\
    TradeSignal.engine_type (Signal.signal entry) = "MICRO-PROFIT" /\
    TradeSignal.trend_strength (Signal.signal entry) = "Medium" /\
    TradeSignal.current_price (Signal.signal entry) = 102%Q /\
    gov_after o = {| current_vix := 15; sized_trades := 1 |}.
Proof. cbv zeta. eexists. eexists. repeat split; vm_compute; reflexivity. Qed.

Example scenario_probability_68 :
  let o := analyze_stock (orchestrator true false [] 68) "RELIANCE" (Some "ENERGY") "NIFTY"
             fresh_state in
  exists result,
    res o = Ok result /\
    result !! "status" = Some (VStr "SUCCESS") /\
    get_signals result = [] /\
    gov_after o = {| current_vix := 15; sized_trades := 0 |}.
Proof. cbv zeta. eexists. repeat split; vm_compute; reflexivity. Qed.

(** *** The theorems at the concrete orchestrator *)

Lemma regime_ineligible_returns_no_trade_witness :
  exists result,
    res (analyze_stock (orchestrator false false [] 72) "RELIANCE" (Some "ENERGY") "NIFTY"
           fresh_state) = Ok result /\
    result !! "status" = Some (VStr "NO_TRADE") /\
    result !! "regime" = Some (VStr "DOWN") /\
    get_signals result = [].
Proof.
  destruct (regime_ineligible_returns_no_trade (orchestrator false false [] 72)
              "RELIANCE" (Some "ENERGY") "NIFTY" fresh_state frame
              eq_refl eq_refl eq_refl)
    as (result & Hres & Hstatus & Hregime & _ & Hsignals & _).
  exists result. repeat split; assumption.
Defined.

Lemma scanners_run_iff_long_eligible_witness :
  In (EvEngine1Scan frame)
    (log (analyze_stock (orchestrator true false [] 72) "RELIANCE" (Some "ENERGY") "NIFTY"
            fresh_state)) /\
  (forall result,
     res (analyze_stock (orchestrator true false [] 72) "RELIANCE" (Some "ENERGY") "NIFTY"
            fresh_state) = Ok result ->
     List.filter is_scan
       (log (analyze_stock (orchestrator true false [] 72) "RELIANCE" (Some "ENERGY") "NIFTY"
               fresh_state)) =
     [EvEngine1Scan frame; EvEngine2Scan frame]).
Proof.
  exact (scanners_run_iff_long_eligible (orchestrator true false [] 72)
           "RELIANCE" (Some "ENERGY") "NIFTY" fresh_state frame
           eq_refl eq_refl eq_refl eq_refl eq_refl).
Defined.

(** C2 fails as stated: the regime is eligible for short only, both gates
    pass and both engines are enabled, and no scanner is called. *)
Lemma short_only_regime_calls_no_scanner :
  fetch_stock_data (data_fetcher (orchestrator false true [] 72)) "RELIANCE" = Some frame /\
  RegimeResult.eligible_for_long (regime_of (orchestrator false true [] 72) frame "NIFTY") = false /\
  RegimeResult.eligible_for_short (regime_of (orchestrator false true [] 72) frame "NIFTY") = true /\
  EligibilityResult.is_eligible
    (eligibility_of (orchestrator false true [] 72) "RELIANCE" frame "NIFTY" (Some "ENERGY"))
  = true /\
  TwoEngineConfig.enable_engine1 (config (orchestrator false true [] 72)) = true /\
  TwoEngineConfig.enable_engine2 (config (orchestrator false true [] 72)) = true /\
  log (analyze_stock (orchestrator false true [] 72) "RELIANCE" (Some "ENERGY") "NIFTY"
         fresh_state) =
    [EvFetchStockData "RELIANCE"; EvFetchIndexData "NIFTY"; EvGetCurrentVix;
     EvUpdateVix 15; EvAnalyzeRegime; EvValidateStock "RELIANCE"] /\
  existsb is_scan
    (log (analyze_stock (orchestrator false true [] 72) "RELIANCE" (Some "ENERGY") "NIFTY"
            fresh_state)) = false.
Proof. repeat split; vm_compute; reflexivity. Qed.

Lemma no_stock_data_returns_error_dict_witness :
  res (analyze_stock (orchestrator true false [] 72) "DELISTED" None "NIFTY" fresh_state) =
    Ok {[ "error" := VStr "Failed to fetch stock data"; "symbol" := VStr "DELISTED" ]} /\
  log (analyze_stock (orchestrator true false [] 72) "DELISTED" None "NIFTY" fresh_state) =
    [EvFetchStockData "DELISTED"; EvFetchIndexData "NIFTY"; EvGetCurrentVix] /\
  gov_after (analyze_stock (orchestrator true false [] 72) "DELISTED" None "NIFTY" fresh_state) =
    fresh_state.
Proof.
  destruct (no_stock_data_returns_error_dict (orchestrator true false [] 72)
              "DELISTED" None "NIFTY" fresh_state eq_refl)
    as (Hres & _ & Hlog & _ & Hgov).
  repeat split; assumption.
Defined.

(** C3 fails as stated: without stock data the returned dict has an
    ['error'] entry and no ['status'] entry. *)
Lemma no_stock_data_result_has_no_status :
  fetch_stock_data (data_fetcher (orchestrator true false [] 72)) "DELISTED" = None /\
  exists result,
    res (analyze_stock (orchestrator true false [] 72) "DELISTED" None "NIFTY" fresh_state)
      = Ok result /\
    result !! "status" = None /\
    result !! "error" = Some (VStr "Failed to fetch stock data").
Proof. split; [reflexivity|]. eexists. repeat split; vm_compute; reflexivity. Qed.

Lemma not_eligible_returns_all_warnings_witness :
  exists result,
    res (analyze_stock (orchestrator true false ["Low turnover"; "Wide spread"] 72)
           "RELIANCE" (Some "ENERGY") "NIFTY" fresh_state) = Ok result /\
    result !! "status" = Some (VStr "NOT_ELIGIBLE") /\
    result !! "reason" = Some (VStrList ["Low turnover"; "Wide spread"]) /\
    result !! "regime" = Some (VStr "UP").
Proof.
  destruct (not_eligible_returns_all_warnings
              (orchestrator true false ["Low turnover"; "Wide spread"] 72)
              "RELIANCE" (Some "ENERGY") "NIFTY" fresh_state frame
              eq_refl eq_refl eq_refl)
    as (result & Hres & Hstatus & Hreason & Hregime & _).
  exists result. repeat split; assumption.
Defined.

Lemma update_vix_first_then_admission_and_sizing_only_witness :
  exists rest,
    log (analyze_stock (orchestrator true false [] 72) "RELIANCE" (Some "ENERGY") "NIFTY"
           fresh_state) =
      [EvFetchStockData "RELIANCE"; EvFetchIndexData "NIFTY"; EvGetCurrentVix;
       EvUpdateVix 15] ++ rest /\
    existsb is_update_vix rest = false /\
    gov_after (analyze_stock (orchestrator true false [] 72) "RELIANCE" (Some "ENERGY") "NIFTY"
                 fresh_state) =
      replay (orchestrator true false [] 72) (List.filter is_admission_or_sizing rest)
        {| current_vix := 15; sized_trades := 0 |}.
Proof.
  destruct (update_vix_first_then_admission_and_sizing_only (orchestrator true false [] 72)
              "RELIANCE" (Some "ENERGY") "NIFTY" fresh_state frame eq_refl)
    as (rest & Hlog & Hno & Hgov & _).
  exists rest. repeat split; assumption.
Defined.

Lemma meets_threshold_is_the_probability_gate_witness :
  rejected_at_probability_stage
    (_process_setup (orchestrator true false [] 68) (Micro pullback) MICRO
       "RELIANCE" "ENERGY" frame None (regime true false) fresh_state).
Proof.
  destruct (meets_threshold_is_the_probability_gate (orchestrator true false [] 68))
    as (_ & _ & _ & _ & _ & _ & Hgate).
  eapply Hgate; reflexivity.
Defined.

Lemma threshold_miss_drops_candidate_only_witness :
  exists result,
    res (analyze_stock (orchestrator true false [] 68) "RELIANCE" (Some "ENERGY") "NIFTY"
           fresh_state) = Ok result /\
    result !! "status" = Some (VStr "SUCCESS") /\
    result !! "signals" = Some (VSignals []).
Proof.
  destruct (threshold_miss_drops_candidate_only (orchestrator true false [] 68)) as [_ Hsymbol].
  destruct (Hsymbol "RELIANCE" (Some "ENERGY") "NIFTY" fresh_state frame eq_refl eq_refl eq_refl)
    as [_ Hmiss].
  destruct (Hmiss eq_refl eq_refl) as (result & Hres & Hstatus & Hsignals & _).
  exists result. repeat split; assumption.
Defined.

Lemma trend_strength_bands_witness :
  exists entry,
    res (_process_setup (orchestrator true false [] 72) (Micro pullback) MICRO
           "RELIANCE" "ENERGY" frame None (regime true false) fresh_state) = Ok (Some entry) /\
    TradeSignal.trend_strength (Signal.signal entry) = trend_strength_of 74.
Proof.
  destruct (trend_strength_bands (orchestrator true false [] 72)) as [Hstored _].
  eexists. split; [reflexivity|].
  exact (Hstored (Micro pullback) MICRO "RELIANCE" "ENERGY" frame None (regime true false)
           fresh_state _ eq_refl).
Defined.

Lemma assembled_signal_round_trip_witness :
  exists entry trend,
    res (_process_setup (orchestrator true false [] 72) (Micro pullback) MICRO
           "RELIANCE" "ENERGY" frame None (regime true false) fresh_state) = Ok (Some entry) /\
    TradeSignal.probability_components (Signal.signal entry) !! "trend" = Some trend /\
    trend_strength_of trend = TradeSignal.trend_strength (Signal.signal entry) /\
    index_alignment_of true = TradeSignal.index_alignment (Signal.signal entry) /\
    TradeSignal.index_alignment (Signal.signal entry) = "YES" /\
    (TradeSignal.trend_strength (Signal.signal entry) = "Medium" <->
     (50 <= trend)%Q /\ (trend < 75)%Q).
Proof.
  eexists.
  destruct (assembled_signal_round_trip (orchestrator true false [] 72) (Micro pullback) MICRO
              "RELIANCE" "ENERGY" frame None (regime true false) fresh_state _ eq_refl)
    as (trend & Hlookup & Hband & Halign & Hyes & _ & _ & Hmedium & _).
  exists trend.
  split; [reflexivity|]. split; [exact Hlookup|]. split; [exact Hband|].
  split; [exact Halign|]. split; [exact (proj2 Hyes eq_refl)|exact Hmedium].
Defined.

(** *** Further properties at the concrete orchestrator *)

Lemma signals_are_built_from_scanned_setups_witness :
  exists result,
    res (analyze_stock (orchestrator true false [] 72) "RELIANCE" (Some "ENERGY") "NIFTY"
           fresh_state) = Ok result /\
    length (get_signals result) <= 1.
Proof.
  eexists. split; [reflexivity|].
  exact (proj2 (signals_are_built_from_scanned_setups (orchestrator true false [] 72)
                  "RELIANCE" (Some "ENERGY") "NIFTY" fresh_state frame _ eq_refl eq_refl)).
Defined.

Lemma returned_dict_shapes_witness :
  exists result,
    res (analyze_stock (orchestrator false false [] 72) "RELIANCE" None "NIFTY" fresh_state)
      = Ok result /\
    result !! "symbol" = Some (VStr "RELIANCE").
Proof.
  eexists. split; [reflexivity|].
  exact (proj1 (returned_dict_shapes (orchestrator false false [] 72)
                  "RELIANCE" None "NIFTY" fresh_state _ eq_refl)).
Defined.

Lemma analyze_stock_exceptions_witness :
  exists result,
    res (analyze_stock (orchestrator true false [] 72) "RELIANCE" None "NIFTY" fresh_state)
      = Ok result.
Proof.
  apply (proj2 (analyze_stock_exceptions (orchestrator true false [] 72)
                  "RELIANCE" None "NIFTY" fresh_state)).
  intros stock_data Hdata. vm_compute in Hdata. injection Hdata as <-. split.
  - eexists. reflexivity.
  - intros s [<-|[]]. discriminate.
Defined.

Lemma disabled_engine_is_never_scanned_witness :
  existsb is_engine1_scan
    (log (analyze_stock (orchestrator_with engine1_off [pullback] 72) "RELIANCE" None "NIFTY"
            fresh_state)) = false.
Proof.
  exact (proj1 (proj1 (disabled_engine_is_never_scanned
                         (orchestrator_with engine1_off [pullback] 72)
                         "RELIANCE" None "NIFTY" fresh_state) eq_refl)).
Defined.

Lemma calls_match_signals_witness :
  exists result,
    res (analyze_stock (orchestrator true false [] 72) "RELIANCE" (Some "ENERGY") "NIFTY"
           fresh_state) = Ok result /\
    calls is_sizing
      (log (analyze_stock (orchestrator true false [] 72) "RELIANCE" (Some "ENERGY") "NIFTY"
              fresh_state)) = length (get_signals result).
Proof.
  eexists. split; [reflexivity|].
  exact (proj1 (calls_match_signals (orchestrator true false [] 72)
                  "RELIANCE" (Some "ENERGY") "NIFTY" fresh_state _ eq_refl)).
Defined.

Lemma missing_target_aborts_analysis_witness :
  res (analyze_stock (orchestrator_with bot_config [bare_pullback; pullback] 72)
         "RELIANCE" None "NIFTY" fresh_state) = Raise (KeyError "1.0R").
Proof.
  exact (f_equal res
           (missing_target_aborts_analysis
              (orchestrator_with bot_config [bare_pullback; pullback] 72)
              "RELIANCE" None "NIFTY" fresh_state frame bare_pullback [pullback]
              eq_refl eq_refl eq_refl eq_refl eq_refl eq_refl)).
Defined.

Lemma admitted_candidate_without_last_close_witness :
  res (process_setups (orchestrator true false [] 72) [Micro pullback; Micro pullback] MICRO
         "RELIANCE" "ENERGY" ∅ None (regime true false) [] fresh_state)
    = Raise (KeyError "Close") /\
  gov_after (process_setups (orchestrator true false [] 72) [Micro pullback; Micro pullback]
               MICRO "RELIANCE" "ENERGY" ∅ None (regime true false) [] fresh_state)
    = {| current_vix := 0; sized_trades := 1 |}.
Proof.
  pose proof (admitted_candidate_without_last_close (orchestrator true false [] 72)
                (Micro pullback) [Micro pullback] MICRO "RELIANCE" "ENERGY" ∅ None
                (regime true false) [] fresh_state _ (KeyError "Close")
                eq_refl eq_refl eq_refl eq_refl) as H.
  split; [exact (f_equal res H)|exact (f_equal gov_after H)].
Defined.

Lemma scan_results_belong_to_the_listed_symbols_witness :
  exists report,
    res (scan_multiple_stocks (orchestrator true false [] 72)
           ["RELIANCE"; "DELISTED"; "RELIANCE"] None fresh_state) = Ok report /\
    report !! "total_stocks_scanned" = Some (SInt 3).
Proof.
  eexists. split; [reflexivity|].
  destruct (scan_results_belong_to_the_listed_symbols (orchestrator true false [] 72)
              ["RELIANCE"; "DELISTED"; "RELIANCE"] None fresh_state _ eq_refl)
    as (signals & results & Htotal & _).
  exact Htotal.
Defined.

Lemma scan_without_stock_data_witness :
  gov_after (scan_multiple_stocks (orchestrator true false [] 72)
               ["DELISTED"; "DELISTED"] None fresh_state) = fresh_state.
Proof.
  apply (scan_without_stock_data (orchestrator true false [] 72)).
  intros s [<-|[<-|[]]]; reflexivity.
Defined.

(** A repeated symbol is counted twice, stored once, and its signals are
    collected each time. *)
Example scan_repeated_symbol :
  exists report results signals,
    res (scan_multiple_stocks (orchestrator true false [] 72)
           ["RELIANCE"; "DELISTED"; "RELIANCE"] None fresh_state) = Ok report /\
    report !! "total_stocks_scanned" = Some (SInt 3) /\
    report !! "total_signals" = Some (SInt 2) /\
    report !! "signals" = Some (SSignals signals) /\
    map (fun entry => TradeSignal.sector (Signal.signal entry)) signals
      = ["UNKNOWN"; "UNKNOWN"] /\
    report !! "detailed_results" = Some (SResults results) /\
    size results = 2.
Proof. do 3 eexists. repeat split; vm_compute; reflexivity. Qed.

End ai_trading_system.

(* ===================================================================== *)
(** ** Properties of stock_sector_lookup.py *)
(* ===================================================================== *)

Module stock_sector_lookup_properties.

Import stock_sector_lookup.

(** *** Facts about the dict model *)

Lemma dict_get_in_values (d : pydict) (k v : string) :
  dict_get k d = Some v -> In v (dict_values d).
Proof.
  induction d as [|[k' v'] d IH]; simpl; [discriminate|].
  destruct (String.eqb k k').
  - intros [= ->]. now left.
  - intros H. right. now apply IH.
Qed.

Lemma dict_get_key (d : pydict) (k : string) :
  In k (dict_keys d) -> exists v, dict_get k d = Some v.
Proof.
  induction d as [|[k' v'] d IH]; simpl; [tauto|].
  intros [-> | Hin].
  - rewrite String.eqb_refl. eauto.
  - destruct (String.eqb k k'); eauto.
Qed.

Lemma fuzzy_match_in_values (c : string) (d : pydict) (v : string) :
  fuzzy_match c d = Some v -> In v (dict_values d).
Proof.
  induction d as [|[k' v'] d IH]; simpl; [discriminate|].
  destruct (str_contains c k' || str_contains k' c).
  - intros [= ->]. now left.
  - intros H. right. now apply IH.
Qed.

Example str_replace_examples :
  str_replace ".NS" "" "RELIANCE.NS" = "RELIANCE" /\
  str_replace ".NS" "" "A.NS.NSB" = "AB" /\
  str_replace ".NS" "" "A.N.NSS" = "A.NS" /\
  str_replace ".NS" "-" ".NS.N" = "-.N".
Proof. repeat split; reflexivity. Qed.

Example str_contains_examples :
  str_contains "BANK" "HDFCBANK" = true /\
  str_contains "" "TCS" = true /\
  str_contains "TCS" "" = false /\
  str_contains "LT" "DLF" = false.
Proof. repeat split; reflexivity. Qed.

(** The repeated key keeps its first position and its last value. *)
Example STOCK_SECTORS_size :
  length STOCK_SECTORS = 66%nat /\ nth_error STOCK_SECTORS 5 = Some ("INDUSINDBK", "TELECOM").
Proof. split; vm_compute; reflexivity. Qed.

(** The doctest examples of [detect_sector]. *)
Example detect_sector_doctests :
  detect_sector "RELIANCE" = "ENERGY" /\
  detect_sector "TCS" = "IT" /\
  detect_sector "RANDOMSTOCK" = "UNKNOWN".
Proof. repeat split; vm_compute; reflexivity. Qed.

Example detect_sector_suffix_and_case :
  detect_sector "reliance.ns" = "ENERGY" /\ detect_sector "Tcs.BO" = "IT".
Proof. split; vm_compute; reflexivity. Qed.

(** Fuzzy matching returns the first entry in insertion order: the empty
    string is contained in every key. *)
Example detect_sector_empty : detect_sector "" = "BANKING".
Proof. vm_compute. reflexivity. Qed.

(** C10. [detect_sector] is a total function of its argument whose value is
    always a sector label of [STOCK_SECTORS] or ["UNKNOWN"]; when the cleaned
    symbol (upper-cased, ".NS" and ".BO" removed) is a key of [STOCK_SECTORS]
    the value is that key's entry; the repeated key ['INDUSINDBK'] keeps its
    later entry, so [detect_sector "INDUSINDBK"] is ["TELECOM"] and not
    ["BANKING"]. *)
Theorem detect_sector_total_lookup :
  (forall symbol : string,
      In (detect_sector symbol) (dict_values STOCK_SECTORS) \/
      detect_sector symbol = "UNKNOWN") /\
  (forall symbol : string,
      In (clean_symbol_of symbol) (dict_keys STOCK_SECTORS) ->
      dict_get (clean_symbol_of symbol) STOCK_SECTORS = Some (detect_sector symbol)) /\
  In ("INDUSINDBK", "BANKING") STOCK_SECTORS_display /\
  In ("INDUSINDBK", "TELECOM") STOCK_SECTORS_display /\
  dict_get "INDUSINDBK" STOCK_SECTORS = Some "TELECOM" /\
  detect_sector "INDUSINDBK" = "TELECOM" /\
  detect_sector "INDUSINDBK" <> "BANKING".
Proof.
  split; [|split].
  - intros symbol. unfold detect_sector.
    destruct (dict_get _ STOCK_SECTORS) as [v|] eqn:Hget.
    + left. eapply dict_get_in_values; eauto.
    + destruct (fuzzy_match _ STOCK_SECTORS) as [v|] eqn:Hfz.
      * left. eapply fuzzy_match_in_values; eauto.
      * now right.
  - intros symbol Hkey. unfold detect_sector.
    destruct (dict_get_key _ _ Hkey) as [v Hv]. now rewrite Hv.
  - repeat split; try (vm_compute; reflexivity).
    + vm_compute. tauto.
    + vm_compute. tauto.
    + vm_compute. discriminate.
Qed.

Lemma detect_sector_total_lookup_witness :
  dict_get (clean_symbol_of "hdfcbank.ns") STOCK_SECTORS = Some (detect_sector "hdfcbank.ns").
Proof.
  apply (proj1 (proj2 detect_sector_total_lookup)). vm_compute. tauto.
Defined.

(** *** The dict display: unique keys, last entry wins *)

Lemma dict_get_set (d : pydict) (k k' v : string) :
  dict_get k (dict_set k' v d) = if String.eqb k k' then Some v else dict_get k d.
Proof.
  induction d as [|[k0 v0] d IH]; simpl; [reflexivity|].
  destruct (String.eqb k' k0) eqn:E; simpl.
  - apply String.eqb_eq in E. subst k0. destruct (String.eqb k k'); reflexivity.
  - destruct (String.eqb k k0) eqn:E2; [|apply IH].
    apply String.eqb_eq in E2. subst k0. now rewrite String.eqb_sym, E.
Qed.

Lemma dict_keys_set (d : pydict) (k v : string) :
  dict_keys (dict_set k v d) =
    if existsb (String.eqb k) (dict_keys d) then dict_keys d else dict_keys d ++ [k].
Proof.
  induction d as [|[k0 v0] d IH]; simpl; [reflexivity|].
  destruct (String.eqb k k0); simpl; [reflexivity|].
  unfold dict_keys in *. rewrite IH. now destruct (existsb _ _).
Qed.

Lemma dict_get_app (d1 d2 : pydict) (k : string) :
  dict_get k (d1 ++ d2) =
    match dict_get k d1 with Some v => Some v | None => dict_get k d2 end.
Proof.
  induction d1 as [|[k0 v0] d1 IH]; simpl; [reflexivity|].
  now destruct (String.eqb k k0).
Qed.

Lemma dict_get_fold_set (items : list (string * string)) (d : pydict) (k : string) :
  dict_get k (fold_left (fun d kv => dict_set (fst kv) (snd kv) d) items d) =
    match dict_get k (rev items) with Some v => Some v | None => dict_get k d end.
Proof.
  revert d. induction items as [|[k0 v0] items IH]; intros d; simpl; [reflexivity|].
  rewrite IH, dict_get_app, dict_get_set. simpl.
  destruct (dict_get k (rev items)); [reflexivity|]. now destruct (String.eqb k k0).
Qed.

Lemma dict_keys_fold_set (items : list (string * string)) (d : pydict) :
  dict_keys (fold_left (fun d kv => dict_set (fst kv) (snd kv) d) items d) =
    fold_left (fun seen x => if existsb (String.eqb x) seen then seen else seen ++ [x])
      (map fst items) (dict_keys d).
Proof.
  revert d. induction items as [|[k0 v0] items IH]; intros d; simpl; [reflexivity|].
  now rewrite IH, dict_keys_set.
Qed.

Lemma existsb_eqb_In (x : string) (l : list string) :
  existsb (String.eqb x) l = true <-> In x l.
Proof.
  rewrite existsb_exists. split.
  - intros (y & Hy & E). apply String.eqb_eq in E. now subst.
  - intros H. exists x. split; [assumption|apply String.eqb_refl].
Qed.

Lemma dedupe_fold_spec (l seen : list string) :
  List.NoDup seen ->
  List.NoDup (fold_left (fun seen x => if existsb (String.eqb x) seen then seen else seen ++ [x])
           l seen) /\
  forall x,
    In x (fold_left (fun seen x => if existsb (String.eqb x) seen then seen else seen ++ [x])
            l seen) <-> In x seen \/ In x l.
Proof.
  revert seen. induction l as [|y l IH]; intros seen Hnd; simpl.
  - split; [assumption|]. intros x. tauto.
  - destruct (existsb (String.eqb y) seen) eqn:E.
    + destruct (IH seen Hnd) as [H1 H2]. split; [assumption|].
      intros x. rewrite H2. apply existsb_eqb_In in E. split; [tauto|].
      intros [H|[<-|H]]; tauto.
    + assert (Hy : ~ In y seen).
      { intros H. apply existsb_eqb_In in H. congruence. }
      assert (Hnd' : List.NoDup (seen ++ [y])).
      { apply List.NoDup_app; [assumption| |].
        - repeat constructor. intros [].
        - intros x Hx [<-|[]]. tauto. }
      destruct (IH (seen ++ [y]) Hnd') as [H1 H2]. split; [assumption|].
      intros x. rewrite H2, in_app_iff. simpl. tauto.
Qed.

Lemma dedupe_spec (l : list string) :
  List.NoDup (dedupe l) /\ forall x, In x (dedupe l) <-> In x l.
Proof.
  destruct (dedupe_fold_spec l [] (List.NoDup_nil _)) as [H1 H2]. split; [exact H1|].
  intros x. unfold dedupe. rewrite H2. simpl. tauto.
Qed.

Lemma dict_get_In (d : pydict) (k v : string) : dict_get k d = Some v -> In (k, v) d.
Proof.
  induction d as [|[k0 v0] d IH]; simpl; [discriminate|].
  destruct (String.eqb k k0) eqn:E.
  - apply String.eqb_eq in E. intros [= ->]. left. now subst.
  - intros H. right. now apply IH.
Qed.

Lemma In_dict_get (d : pydict) (k v : string) :
  List.NoDup (dict_keys d) -> In (k, v) d -> dict_get k d = Some v.
Proof.
  induction d as [|[k0 v0] d IH]; simpl; [tauto|].
  intros Hnd [[= -> ->]|Hin]; [now rewrite String.eqb_refl|].
  inversion Hnd as [|? ? Hk0 Hnd']; subst.
  destruct (String.eqb k k0) eqn:E; [|now apply IH].
  apply String.eqb_eq in E. subst k0. exfalso. apply Hk0.
  change k with (fst (k, v)). now apply in_map.
Qed.

Lemma dict_display_keys (items : list (string * string)) :
  dict_keys (dict_display items) = dedupe (map fst items).
Proof. unfold dict_display. now rewrite dict_keys_fold_set. Qed.

Lemma dict_display_NoDup (items : list (string * string)) :
  List.NoDup (dict_keys (dict_display items)).
Proof. rewrite dict_display_keys. apply dedupe_spec. Qed.

Lemma dict_display_get (items : list (string * string)) (k : string) :
  dict_get k (dict_display items) = dict_get k (rev items).
Proof.
  unfold dict_display. rewrite dict_get_fold_set.
  now destruct (dict_get k (rev items)).
Qed.

(** X1.  A dict display keeps one entry per key, at the position of the
    key's first writing and with the value of its last writing.  For
    [STOCK_SECTORS]: 67 entries are written, 66 keys are kept. *)
Theorem dict_display_last_entry_wins (items : list (string * string)) :
  List.NoDup (dict_keys (dict_display items)) /\
  dict_keys (dict_display items) = dedupe (map fst items) /\
  (forall k, dict_get k (dict_display items) = dict_get k (rev items)) /\
  (length STOCK_SECTORS_display = 67 /\ length STOCK_SECTORS = 66)%nat.
Proof.
  split; [apply dict_display_NoDup|].
  split; [apply dict_display_keys|].
  split; [apply dict_display_get|].
  split; vm_compute; reflexivity.
Qed.

Lemma STOCK_SECTORS_keys_NoDup : List.NoDup (dict_keys STOCK_SECTORS).
Proof. exact (dict_display_NoDup STOCK_SECTORS_display). Qed.

(** *** get_stocks_by_sector and get_all_sectors *)

Lemma in_filter_by_value (d : pydict) (sector stock : string) :
  List.NoDup (dict_keys d) ->
  In stock (map fst (List.filter (fun kv => String.eqb (snd kv) sector) d)) <->
  dict_get stock d = Some sector.
Proof.
  intros Hnd. rewrite in_map_iff. split.
  - intros ([k v] & Hk & Hin). simpl in Hk. subst k.
    apply filter_In in Hin as [Hin Hv]. simpl in Hv. apply String.eqb_eq in Hv. subst v.
    now apply In_dict_get.
  - intros Hget. exists (stock, sector). split; [reflexivity|].
    apply filter_In. split; [now apply dict_get_In|]. apply String.eqb_refl.
Qed.

Lemma STOCK_SECTORS_keys_clean (k : string) :
  In k (dict_keys STOCK_SECTORS) -> clean_symbol_of k = k.
Proof.
  assert (H : forallb (fun k => String.eqb (clean_symbol_of k) k) (dict_keys STOCK_SECTORS) = true)
    by (vm_compute; reflexivity).
  intros Hin. apply String.eqb_eq. revert k Hin. now apply forallb_forall.
Qed.

Lemma dict_get_key_In (d : pydict) (k v : string) :
  dict_get k d = Some v -> In k (dict_keys d).
Proof.
  intros H. apply dict_get_In in H. change k with (fst (k, v)). now apply in_map.
Qed.

(** X2.  [get_stocks_by_sector(sector)] lists exactly the keys that
    [STOCK_SECTORS] maps to [sector]; [detect_sector] of a listed stock gives
    that sector back, and every key of the table is listed under the sector
    [detect_sector] returns for it. *)
Theorem get_stocks_by_sector_detect_sector (sector stock : string) :
  (In stock (get_stocks_by_sector sector) <-> dict_get stock STOCK_SECTORS = Some sector) /\
  (In stock (get_stocks_by_sector sector) -> detect_sector stock = sector) /\
  (In stock (dict_keys STOCK_SECTORS) -> In stock (get_stocks_by_sector (detect_sector stock))).
Proof.
  assert (Hiff : forall sec stk,
             In stk (get_stocks_by_sector sec) <-> dict_get stk STOCK_SECTORS = Some sec).
  { intros sec stk. apply in_filter_by_value, STOCK_SECTORS_keys_NoDup. }
  assert (Hdetect : forall sec stk,
             dict_get stk STOCK_SECTORS = Some sec -> detect_sector stk = sec).
  { intros sec stk Hget. unfold detect_sector.
    rewrite (STOCK_SECTORS_keys_clean stk (dict_get_key_In _ _ _ Hget)). now rewrite Hget. }
  split; [apply Hiff|]. split.
  - intros Hin. apply Hdetect. exact (proj1 (Hiff _ _) Hin).
  - intros Hkey. destruct (dict_get_key _ _ Hkey) as [v Hv].
    rewrite (Hdetect _ _ Hv). exact (proj2 (Hiff _ _) Hv).
Qed.

Lemma In_insert_sorted (x y : string) (l : list string) :
  In x (insert_sorted y l) <-> x = y \/ In x l.
Proof.
  induction l as [|z l IH]; simpl; [intuition congruence|].
  destruct (String.leb y z); simpl; [intuition congruence|].
  rewrite IH. intuition congruence.
Qed.

Lemma In_sorted (x : string) (l : list string) : In x (sorted l) <-> In x l.
Proof.
  induction l as [|y l IH]; simpl; [tauto|].
  rewrite In_insert_sorted, IH. intuition congruence.
Qed.

Lemma NoDup_insert_sorted (y : string) (l : list string) :
  List.NoDup l -> ~ In y l -> List.NoDup (insert_sorted y l).
Proof.
  induction l as [|z l IH]; simpl; intros Hnd Hy.
  - repeat constructor. intros [].
  - destruct (String.leb y z).
    + constructor; [simpl; exact Hy|assumption].
    + inversion Hnd as [|? ? Hz Hnd']; subst. constructor.
      * rewrite In_insert_sorted. intros [->|H]; tauto.
      * apply IH; tauto.
Qed.

Lemma NoDup_sorted (l : list string) : List.NoDup l -> List.NoDup (sorted l).
Proof.
  induction l as [|y l IH]; simpl; intros Hnd; [constructor|].
  inversion Hnd as [|? ? Hy Hnd']; subst.
  apply NoDup_insert_sorted; [now apply IH|]. now rewrite In_sorted.
Qed.

Lemma value_iff_filter_nonempty (d : pydict) (sector : string) :
  In sector (dict_values d) <->
  map fst (List.filter (fun kv => String.eqb (snd kv) sector) d) <> [].
Proof.
  induction d as [|[k v] d IH]; simpl; [tauto|].
  destruct (String.eqb v sector) eqn:E; simpl.
  - apply String.eqb_eq in E. split; [discriminate|]. intros _. now left.
  - apply String.eqb_neq in E. unfold dict_values in IH. rewrite <- IH. tauto.
Qed.

Lemma sorted_dedupe_mem (l : list string) (x : string) : In x (sorted (dedupe l)) <-> In x l.
Proof.
  split.
  - intros H. apply dedupe_spec. now apply In_sorted.
  - intros H. apply In_sorted. now apply dedupe_spec.
Qed.

(** X3.  [get_all_sectors()] holds exactly the sectors that occur as values
    of [STOCK_SECTORS], each once, in strictly ascending order (13 of them);
    a sector is in it exactly when [get_stocks_by_sector] finds a stock for
    it; ["UNKNOWN"] is not one of them, so it is told apart from every sector
    [detect_sector] can return from the table. *)
Theorem get_all_sectors_spec :
  (forall sector, In sector get_all_sectors <-> In sector (dict_values STOCK_SECTORS)) /\
  List.NoDup get_all_sectors /\
  StronglySorted (fun a b => String.ltb a b = true) get_all_sectors /\
  length get_all_sectors = 13%nat /\
  (forall sector, In sector get_all_sectors <-> get_stocks_by_sector sector <> []) /\
  ~ In "UNKNOWN" get_all_sectors /\
  (forall symbol, In (detect_sector symbol) get_all_sectors \/ detect_sector symbol = "UNKNOWN").
Proof.
  assert (Hmem : forall sector,
             In sector get_all_sectors <-> In sector (dict_values STOCK_SECTORS))
    by (intros sector; apply sorted_dedupe_mem).
  split; [exact Hmem|]. split; [|split; [|split; [|split; [|split]]]].
  - unfold get_all_sectors. apply NoDup_sorted, dedupe_spec.
  - assert (E : get_all_sectors =
                ["AUTO"; "BANKING"; "CEMENT"; "ENERGY"; "FINANCE"; "FMCG"; "INFRA"; "IT";
                 "METALS"; "PAINTS"; "PHARMA"; "REALTY"; "TELECOM"])
      by (vm_compute; reflexivity).
    rewrite E. repeat constructor.
  - vm_compute. reflexivity.
  - intros sector. split.
    + intros H. unfold get_stocks_by_sector.
      exact (proj1 (value_iff_filter_nonempty STOCK_SECTORS sector) (proj1 (Hmem sector) H)).
    + intros H. unfold get_stocks_by_sector in H.
      exact (proj2 (Hmem sector) (proj2 (value_iff_filter_nonempty STOCK_SECTORS sector) H)).
  - intros Hin.
    pose proof (proj2 (existsb_eqb_In _ _) (proj1 (Hmem _) Hin)) as Hb.
    revert Hb. vm_compute. discriminate.
  - intros symbol. unfold detect_sector.
    destruct (dict_get _ STOCK_SECTORS) as [v|] eqn:Hget.
    + left. apply (proj2 (Hmem _)). eapply dict_get_in_values; eauto.
    + destruct (fuzzy_match _ STOCK_SECTORS) as [v|] eqn:Hfz.
      * left. apply (proj2 (Hmem _)). eapply fuzzy_match_in_values; eauto.
      * now right.
Qed.

(** *** Exchange suffixes *)

Lemma append_cons (c : ascii) (s t : string) :
  (String c s ++ t)%string = String c (s ++ t).
Proof. reflexivity. Qed.

Lemma str_upper_app (s t : string) :
  str_upper (s ++ t) = (str_upper s ++ str_upper t)%string.
Proof.
  induction s as [|c s' IH]; [reflexivity|].
  rewrite append_cons. cbn [str_upper]. rewrite append_cons. f_equal. exact IH.
Qed.

Lemma append_assoc (a b c : string) : ((a ++ b) ++ c = a ++ (b ++ c))%string.
Proof.
  induction a as [|x a' IH]; [reflexivity|]. rewrite !append_cons. f_equal. exact IH.
Qed.

Lemma append_empty_r (a : string) : (a ++ "")%string = a.
Proof.
  induction a as [|x a' IH]; [reflexivity|]. rewrite append_cons. f_equal. exact IH.
Qed.

Lemma prefix_length (p s : string) :
  String.prefix p s = true -> String.length p <= String.length s.
Proof.
  revert s. induction p as [|a p IH]; intros s; [simpl; lia|].
  destruct s as [|b s]; cbn [String.prefix String.length]; [discriminate|].
  destruct (ascii_dec a b); [|discriminate].
  intros H. apply IH in H. lia.
Qed.

(** Replacing in [x ++ t] is replacing in [x] and in [t] apart, as long as no
    occurrence of [old] starts in [x] and ends in [t]. *)
Lemma replace_from_app (old new t : string) :
  (forall x, x <> "" -> String.prefix old (x ++ t) = String.prefix old x) ->
  forall x k, k <= String.length x ->
    replace_from old new k (x ++ t) =
      (replace_from old new k x ++ replace_from old new 0 t)%string.
Proof.
  intros Hpre. induction x as [|c x IH]; intros k Hk.
  - simpl in Hk. assert (k = 0) as -> by lia. reflexivity.
  - change (String c x ++ t)%string with (String c (x ++ t)).
    destruct k as [|k].
    + cbn [replace_from].
      change (String c (x ++ t)) with (String c x ++ t)%string.
      rewrite (Hpre (String c x)) by discriminate.
      destruct (String.prefix old (String c x)) eqn:E.
      * apply prefix_length in E. simpl in E.
        rewrite IH by lia. now rewrite append_assoc.
      * rewrite IH by lia. reflexivity.
    + cbn [replace_from]. apply IH. simpl in Hk. lia.
Qed.

Ltac prefix_cases x :=
  let c1 := fresh "c" in let c2 := fresh "c" in let c3 := fresh "c" in
  destruct x as [|c1 [|c2 [|c3 x]]]; [congruence|..];
  rewrite ?append_cons; cbn [String.prefix];
  repeat match goal with
    | |- context [ascii_dec ?a ?b] => destruct (ascii_dec a b); try congruence
    end;
  first [reflexivity | now destruct x].

Lemma prefix_NS_before_NS (x : string) :
  x <> "" -> String.prefix ".NS" (x ++ ".NS") = String.prefix ".NS" x.
Proof. intros Hx. prefix_cases x. Qed.

Lemma prefix_NS_before_BO (x : string) :
  x <> "" -> String.prefix ".NS" (x ++ ".BO") = String.prefix ".NS" x.
Proof. intros Hx. prefix_cases x. Qed.

Lemma prefix_BO_before_BO (x : string) :
  x <> "" -> String.prefix ".BO" (x ++ ".BO") = String.prefix ".BO" x.
Proof. intros Hx. prefix_cases x. Qed.

Lemma clean_symbol_of_suffix (symbol suffix : string) :
  str_upper suffix = ".NS" \/ str_upper suffix = ".BO" ->
  clean_symbol_of (symbol ++ suffix) = clean_symbol_of symbol.
Proof.
  intros Hsuffix. unfold clean_symbol_of, str_replace. rewrite str_upper_app.
  destruct Hsuffix as [-> | ->].
  - rewrite (replace_from_app ".NS" "" ".NS" prefix_NS_before_NS) by lia.
    cbn [replace_from String.prefix]. simpl. now rewrite append_empty_r.
  - rewrite (replace_from_app ".NS" "" ".BO" prefix_NS_before_BO) by lia.
    change (replace_from ".NS" "" 0 ".BO") with ".BO".
    rewrite (replace_from_app ".BO" "" ".BO" prefix_BO_before_BO) by lia.
    change (replace_from ".BO" "" 0 ".BO") with "". now rewrite append_empty_r.
Qed.

(** X4.  Appending an exchange suffix, ".NS" or ".BO" in any letter case, to
    a symbol changes neither the cleaned symbol nor the sector
    [detect_sector] returns. *)
Theorem detect_sector_ignores_exchange_suffix (symbol suffix : string) :
  str_upper suffix = ".NS" \/ str_upper suffix = ".BO" ->
  clean_symbol_of (symbol ++ suffix) = clean_symbol_of symbol /\
  detect_sector (symbol ++ suffix) = detect_sector symbol.
Proof.
  intros Hsuffix. pose proof (clean_symbol_of_suffix symbol suffix Hsuffix) as Hclean.
  split; [exact Hclean|]. unfold detect_sector. now rewrite Hclean.
Qed.

Lemma detect_sector_ignores_exchange_suffix_witness :
  detect_sector ("Tcs" ++ ".bo") = detect_sector "Tcs".
Proof.
  apply (detect_sector_ignores_exchange_suffix "Tcs" ".bo"). right. reflexivity.
Defined.

Lemma get_stocks_by_sector_detect_sector_witness : detect_sector "TCS" = "IT".
Proof.
  apply (proj1 (proj2 (get_stocks_by_sector_detect_sector "IT" "TCS"))).
  vm_compute. tauto.
Defined.

Lemma detect_sector_value_or_unknown (symbol : string) :
  In (detect_sector symbol) (dict_values STOCK_SECTORS) \/ detect_sector symbol = "UNKNOWN".
Proof.
  unfold detect_sector.
  destruct (dict_get _ STOCK_SECTORS) as [v|] eqn:Hget.
  - left. eapply dict_get_in_values; eauto.
  - destruct (fuzzy_match _ STOCK_SECTORS) as [v|] eqn:Hfz.
    + left. eapply fuzzy_match_in_values; eauto.
    + now right.
Qed.

Lemma STOCK_SECTORS_values_nonempty (v : string) :
  In v (dict_values STOCK_SECTORS) -> v <> "".
Proof.
  assert (H : forallb (fun v => negb (String.eqb v "")) (dict_values STOCK_SECTORS) = true)
    by (vm_compute; reflexivity).
  intros Hin. pose proof (proj1 (forallb_forall _ _) H v Hin) as Hv.
  apply negb_true_iff, String.eqb_neq in Hv. exact Hv.
Qed.

End stock_sector_lookup_properties.

(* ===================================================================== *)
(** ** Properties of main.py *)
(* ===================================================================== *)

Module main_properties.

Import stock_sector_lookup stock_sector_lookup_properties main.

(** X15.  The sector the bot passes to [analyze_stock] is never ["UNKNOWN"]
    and never empty: it is one of the sectors of [get_all_sectors()] or
    ["OTHER"]; so [analyze_stock] keeps it as it is ([sector or "UNKNOWN"]
    does not replace it) and every signal of the returned dict carries
    it. *)
Theorem bot_sector_reaches_the_signals :
  (forall symbol,
     bot_sector symbol <> "UNKNOWN" /\
     (In (bot_sector symbol) get_all_sectors \/ bot_sector symbol = "OTHER") /\
     ai_trading_system.sector_or_unknown (Some (bot_sector symbol)) = bot_sector symbol) /\
  (forall (Gov : Type) (self : ai_trading_system.TradingSystemOrchestrator Gov)
          (symbol index : string) (g : Gov) (result : gmap string ai_trading_system.PyValue),
     ai_trading_system.res
       (ai_trading_system.analyze_stock self symbol (Some (bot_sector symbol)) index g)
       = ai_trading_system.Ok result ->
     Forall (fun entry =>
               ai_trading_system.TradeSignal.sector (ai_trading_system.Signal.signal entry)
               = bot_sector symbol)
       (ai_trading_system.get_signals result)).
Proof.
  assert (Hbot : forall symbol,
             bot_sector symbol <> "UNKNOWN" /\
             (In (bot_sector symbol) get_all_sectors \/ bot_sector symbol = "OTHER") /\
             ai_trading_system.sector_or_unknown (Some (bot_sector symbol))
               = bot_sector symbol).
  { intros symbol. unfold bot_sector.
    destruct (String.eqb (detect_sector symbol) "UNKNOWN") eqn:E.
    - split; [discriminate|]. split; [now right|reflexivity].
    - apply String.eqb_neq in E. split; [exact E|].
      destruct (detect_sector_value_or_unknown symbol) as [Hin|Hunk]; [|contradiction].
      split.
      + left. unfold get_all_sectors. exact (proj2 (sorted_dedupe_mem _ _) Hin).
      + apply STOCK_SECTORS_values_nonempty in Hin.
        destruct (detect_sector symbol); [contradiction|reflexivity]. }
  split; [exact Hbot|].
  intros Gov self symbol index g result Hres.
  apply ai_trading_system.analyze_stock_signal_symbols in Hres.
  eapply Forall_impl; [exact Hres|].
  intros entry [_ Hsector]. rewrite Hsector. apply Hbot.
Qed.

Lemma bot_sector_reaches_the_signals_witness :
  bot_sector "ZOMATO" = "OTHER" /\ bot_sector "ZOMATO" <> "UNKNOWN".
Proof.
  split; [vm_compute; reflexivity|].
  exact (proj1 (proj1 bot_sector_reaches_the_signals "ZOMATO")).
Defined.

End main_properties.
